(** * Vector storage factory: configuration resolution and orchestration

    A shallow embedding of [src/core/vector_storage/factory.ts]: the two
    configuration resolvers [getVectorStoreConfigFromEnv] and
    [getWorkspaceVectorStoreConfigFromEnv], the dual and multi collection
    factories, and the service-cache entry points.

    Conventions.
    - A JavaScript string is a [string] with one character per code unit;
      only code units below 256 are represented.
    - A JavaScript number is a [number]: NaN, an infinity, or a finite
      rational (every finite double is one; the two zeros coincide, which
      no test in the factory tells apart).
    - A value that may be [undefined] is an [option]; [None] is [undefined].
    - Logging calls have no influence on any returned value and are left out. *)

From Stdlib Require Import QArith Ascii String.
From stdpp Require Import base strings list gmap.

Local Open Scope string_scope.
Local Open Scope list_scope.

(** ** JavaScript values *)

Inductive number : Type :=
| NaN
| Infinity (negative : bool)
| Finite (q : Q).

Definition num (z : Z) : number := Finite (inject_Z z).

(** [Number.isNaN(v)]: false for [undefined] and for every other number. *)
Definition Number_isNaN (v : option number) : bool :=
  match v with
  | Some NaN => true
  | _ => false
  end.

(** [n > 0] on numbers. *)
Definition number_gt0 (n : number) : bool :=
  match n with
  | NaN => false
  | Infinity negative => negb negative
  | Finite q => negb (Qle_bool q 0)
  end.

(** Truthiness of a number: every number but NaN and zero. *)
Definition number_truthy (n : number) : bool :=
  match n with
  | NaN => false
  | Infinity _ => true
  | Finite q => negb (Qeq_bool q 0)
  end.

(** The values an [any] argument ranges over: the JSON-like ones. *)
#[local] Set Warnings "-register-all".
Inductive jsval : Type :=
| JUndefined
| JNull
| JBool (b : bool)
| JNumber (n : number)
| JString (s : string)
| JObject (props : list (string * jsval)).
#[local] Set Warnings "register-all".

Definition truthy (v : jsval) : bool :=
  match v with
  | JUndefined | JNull => false
  | JBool b => b
  | JNumber n => number_truthy n
  | JString s => negb (String.eqb s "")
  | JObject _ => true
  end.

Definition typeof (v : jsval) : string :=
  match v with
  | JUndefined => "undefined"
  | JNull => "object"
  | JBool _ => "boolean"
  | JNumber _ => "number"
  | JString _ => "string"
  | JObject _ => "object"
  end.

Fixpoint prop_lookup (k : string) (props : list (string * jsval)) : jsval :=
  match props with
  | [] => JUndefined
  | (k', v) :: rest => if String.eqb k k' then v else prop_lookup k rest
  end.

(** [v?.k], and [v.k] on a value known not to be [null] or [undefined]:
    the primitives carry no own property of the names read here. *)
Definition get (v : jsval) (k : string) : jsval :=
  match v with
  | JObject props => prop_lookup k props
  | _ => JUndefined
  end.

(** Truthiness of an optional string: set and not empty. *)
Definition str_truthy (s : option string) : bool :=
  match s with
  | Some x => negb (String.eqb x "")
  | None => false
  end.

(** [a || b] on optional strings. *)
Definition str_or (a b : option string) : option string :=
  if str_truthy a then a else b.

(** [a || 'literal'] on an optional string. *)
Definition str_or_lit (a : option string) (b : string) : string :=
  match a with
  | Some x => if String.eqb x "" then b else x
  | None => b
  end.

(** [a === 'literal'] on an optional string. *)
Definition str_is (a : option string) (b : string) : bool :=
  match a with
  | Some x => String.eqb x b
  | None => false
  end.

(** ** Strings: [toLowerCase] and [trim] *)

Definition lower_char (c : ascii) : ascii :=
  let n := nat_of_ascii c in
  if (((65 <=? n) && (n <=? 90))
      || ((192 <=? n) && (n <=? 222) && negb (n =? 215)))%nat
  then ascii_of_nat (n + 32)
  else c.

Fixpoint toLowerCase (s : string) : string :=
  match s with
  | EmptyString => EmptyString
  | String c rest => String (lower_char c) (toLowerCase rest)
  end.

(** White space and line terminators among the code units below 256. *)
Definition is_space (c : ascii) : bool :=
  let n := nat_of_ascii c in
  (((9 <=? n) && (n <=? 13)) || (n =? 32) || (n =? 160))%nat.

Fixpoint trimStart (s : string) : string :=
  match s with
  | EmptyString => EmptyString
  | String c rest => if is_space c then trimStart rest else s
  end.

(** Removes trailing white space: a character is kept when something
    that is kept follows it, or when it is not white space itself. *)
Fixpoint trimEnd (s : string) : string :=
  match s with
  | EmptyString => EmptyString
  | String c rest =>
      match trimEnd rest with
      | EmptyString => if is_space c then EmptyString else String c EmptyString
      | kept => String c kept
      end
  end.

Definition trim (s : string) : string := trimEnd (trimStart s).

(** ** The environment object

    The fields of [env] (module [../env.js]) that the factory reads, with
    the types the factory uses them at. *)

Record Env : Type := {
  VECTOR_STORE_TYPE : option string;
  VECTOR_STORE_COLLECTION : option string;
  VECTOR_STORE_DIMENSION : option number;
  VECTOR_STORE_MAX_VECTORS : option number;
  VECTOR_STORE_HOST : option string;
  VECTOR_STORE_URL : option string;
  VECTOR_STORE_PORT : option number;
  VECTOR_STORE_API_KEY : option string;
  VECTOR_STORE_DISTANCE : option string;
  VECTOR_STORE_ON_DISK : option bool;
  VECTOR_STORE_USERNAME : option string;
  VECTOR_STORE_PASSWORD : option string;
  PINECONE_NAMESPACE : option string;
  PINECONE_METRIC : option string;
  REFLECTION_VECTOR_STORE_COLLECTION : option string;
  USE_WORKSPACE_MEMORY : bool;
  WORKSPACE_VECTOR_STORE_TYPE : option string;
  WORKSPACE_VECTOR_STORE_COLLECTION : option string;
  WORKSPACE_VECTOR_STORE_DIMENSION : option number;
  WORKSPACE_VECTOR_STORE_MAX_VECTORS : option number;
  WORKSPACE_VECTOR_STORE_HOST : option string;
  WORKSPACE_VECTOR_STORE_URL : option string;
  WORKSPACE_VECTOR_STORE_PORT : option number;
  WORKSPACE_VECTOR_STORE_API_KEY : option string;
  WORKSPACE_VECTOR_STORE_DISTANCE : option string;
  WORKSPACE_VECTOR_STORE_ON_DISK : option bool;
  WORKSPACE_VECTOR_STORE_USERNAME : option string;
  WORKSPACE_VECTOR_STORE_PASSWORD : option string
}.

(** The environment in which nothing is set. *)
Definition unset : Env := {|
  VECTOR_STORE_TYPE := None;
  VECTOR_STORE_COLLECTION := None;
  VECTOR_STORE_DIMENSION := None;
  VECTOR_STORE_MAX_VECTORS := None;
  VECTOR_STORE_HOST := None;
  VECTOR_STORE_URL := None;
  VECTOR_STORE_PORT := None;
  VECTOR_STORE_API_KEY := None;
  VECTOR_STORE_DISTANCE := None;
  VECTOR_STORE_ON_DISK := None;
  VECTOR_STORE_USERNAME := None;
  VECTOR_STORE_PASSWORD := None;
  PINECONE_NAMESPACE := None;
  PINECONE_METRIC := None;
  REFLECTION_VECTOR_STORE_COLLECTION := None;
  USE_WORKSPACE_MEMORY := false;
  WORKSPACE_VECTOR_STORE_TYPE := None;
  WORKSPACE_VECTOR_STORE_COLLECTION := None;
  WORKSPACE_VECTOR_STORE_DIMENSION := None;
  WORKSPACE_VECTOR_STORE_MAX_VECTORS := None;
  WORKSPACE_VECTOR_STORE_HOST := None;
  WORKSPACE_VECTOR_STORE_URL := None;
  WORKSPACE_VECTOR_STORE_PORT := None;
  WORKSPACE_VECTOR_STORE_API_KEY := None;
  WORKSPACE_VECTOR_STORE_DISTANCE := None;
  WORKSPACE_VECTOR_STORE_ON_DISK := None;
  WORKSPACE_VECTOR_STORE_USERNAME := None;
  WORKSPACE_VECTOR_STORE_PASSWORD := None
|}.

(** ** Backend configurations

    [VectorStoreConfig] is the discriminated union of [config.ts]; every
    variant lists the properties the factory writes into its object
    literals, in the order of the source. *)

Inductive ChromaDistance : Type := cosine | l2 | euclidean | ip | dot.

Module InMemory.
Record t : Type := {
  collectionName : option string;
  dimension : number;
  maxVectors : number;
  _fallbackFrom : option string
}.
End InMemory.

Module Qdrant.
Record t : Type := {
  collectionName : option string;
  dimension : number;
  url : option string;
  host : option string;
  port : option number;
  apiKey : option string;
  distance : option string;
  onDisk : option bool
}.
End Qdrant.

Module Milvus.
Record t : Type := {
  collectionName : option string;
  dimension : number;
  url : option string;
  host : option string;
  port : option number;
  username : option string;
  password : option string;
  token : option string
}.
End Milvus.

Module Chroma.
(** [headers] is always [undefined] and is left out. *)
Record t : Type := {
  collectionName : option string;
  dimension : number;
  url : option string;
  host : option string;
  port : option number;
  distance : ChromaDistance
}.
End Chroma.

Module Pinecone.
Record t : Type := {
  collectionName : option string;
  dimension : number;
  apiKey : option string;
  indexName : option string;
  namespace : option string;
  metric : option string
}.
End Pinecone.

Inductive VectorStoreConfig : Type :=
| in_memory (c : InMemory.t)
| qdrant (c : Qdrant.t)
| milvus (c : Milvus.t)
| chroma (c : Chroma.t)
| pinecone (c : Pinecone.t).

(** The [type] property. *)
Definition type (config : VectorStoreConfig) : string :=
  match config with
  | in_memory _ => "in-memory"
  | qdrant _ => "qdrant"
  | milvus _ => "milvus"
  | chroma _ => "chroma"
  | pinecone _ => "pinecone"
  end.

Definition collectionName (config : VectorStoreConfig) : option string :=
  match config with
  | in_memory c => InMemory.collectionName c
  | qdrant c => Qdrant.collectionName c
  | milvus c => Milvus.collectionName c
  | chroma c => Chroma.collectionName c
  | pinecone c => Pinecone.collectionName c
  end.

Definition dimension (config : VectorStoreConfig) : number :=
  match config with
  | in_memory c => InMemory.dimension c
  | qdrant c => Qdrant.dimension c
  | milvus c => Milvus.dimension c
  | chroma c => Chroma.dimension c
  | pinecone c => Pinecone.dimension c
  end.

(** The [_fallbackFrom] property; [None] where the object has none. *)
Definition fallbackFrom (config : VectorStoreConfig) : option string :=
  match config with
  | in_memory c => InMemory._fallbackFrom c
  | _ => None
  end.

(** ** Pieces shared by the two resolvers *)

(** [v !== undefined && !Number.isNaN(v) ? v : fallback]. *)
Definition number_or (v : option number) (fallback : number) : number :=
  match v with
  | Some n => if negb (Number_isNaN (Some n)) then n else fallback
  | None => fallback
  end.

(** The override of the dimension from [agentConfig.embedding.dimensions]
    (lines 340-354 and 546-560). *)
Definition override_dimension (agentConfig : jsval) (dimension : number) : number :=
  let embedding := get agentConfig "embedding" in
  if truthy embedding
     && String.eqb (typeof embedding) "object"
     && truthy (get embedding "dimensions")
  then
    let embeddingDimension := get embedding "dimensions" in
    match embeddingDimension with
    | JNumber n => if number_gt0 n then n else dimension
    | _ => dimension
    end
  else dimension.

(** The mapping of the distance metric to the ChromaDB format
    (the [switch] of lines 424-442, repeated at 651-669). *)
Definition chroma_distance (envDistance : option string) : ChromaDistance :=
  match envDistance with
  | Some d =>
      if negb (String.eqb d "") then
        let lowered := toLowerCase d in
        if String.eqb lowered "cosine" then cosine
        else if String.eqb lowered "euclidean" || String.eqb lowered "l2" then l2
        else if String.eqb lowered "dot" || String.eqb lowered "ip" then ip
        else cosine
      else cosine
  | None => cosine
  end.

(** The in-memory object literal returned on a fallback and in the last
    branch. *)
Definition in_memory_config (collectionName : option string)
    (dimension maxVectors : number) (fallback : option string) : VectorStoreConfig :=
  in_memory {|
    InMemory.collectionName := collectionName;
    InMemory.dimension := dimension;
    InMemory.maxVectors := maxVectors;
    InMemory._fallbackFrom := fallback
  |}.

(** ** [getVectorStoreConfigFromEnv] (lines 324-504) *)

Definition getVectorStoreConfigFromEnv (env : Env) (agentConfig : jsval)
    : VectorStoreConfig :=
  let storeType := VECTOR_STORE_TYPE env in
  let collectionName := VECTOR_STORE_COLLECTION env in
  let dimension := number_or (VECTOR_STORE_DIMENSION env) (num 1536) in
  let maxVectors := number_or (VECTOR_STORE_MAX_VECTORS env) (num 10000) in
  let dimension := override_dimension agentConfig dimension in
  if str_is storeType "qdrant" then
    let host := VECTOR_STORE_HOST env in
    let url := VECTOR_STORE_URL env in
    let port :=
      if Number_isNaN (VECTOR_STORE_PORT env) then None else VECTOR_STORE_PORT env in
    let apiKey := VECTOR_STORE_API_KEY env in
    let distance := VECTOR_STORE_DISTANCE env in
    let onDisk := VECTOR_STORE_ON_DISK env in
    if negb (str_truthy url) && negb (str_truthy host) then
      in_memory_config collectionName dimension maxVectors (Some "qdrant")
    else
      qdrant {|
        Qdrant.collectionName := collectionName;
        Qdrant.dimension := dimension;
        Qdrant.url := url;
        Qdrant.host := host;
        Qdrant.port := port;
        Qdrant.apiKey := apiKey;
        Qdrant.distance := distance;
        Qdrant.onDisk := onDisk
      |}
  else if str_is storeType "milvus" then
    let host := VECTOR_STORE_HOST env in
    let url := VECTOR_STORE_URL env in
    let port :=
      if Number_isNaN (VECTOR_STORE_PORT env) then None else VECTOR_STORE_PORT env in
    let username := VECTOR_STORE_USERNAME env in
    let password := VECTOR_STORE_PASSWORD env in
    let token := VECTOR_STORE_API_KEY env in
    if negb (str_truthy url) && negb (str_truthy host) then
      in_memory_config collectionName dimension maxVectors (Some "milvus")
    else
      milvus {|
        Milvus.collectionName := collectionName;
        Milvus.dimension := dimension;
        Milvus.url := url;
        Milvus.host := host;
        Milvus.port := port;
        Milvus.username := username;
        Milvus.password := password;
        Milvus.token := token
      |}
  else if str_is storeType "chroma" then
    let host := VECTOR_STORE_HOST env in
    let url := VECTOR_STORE_URL env in
    let port :=
      if Number_isNaN (VECTOR_STORE_PORT env) then None else VECTOR_STORE_PORT env in
    let envDistance := VECTOR_STORE_DISTANCE env in
    let distance := chroma_distance envDistance in
    if negb (str_truthy url) && negb (str_truthy host) then
      in_memory_config collectionName dimension maxVectors (Some "chroma")
    else
      chroma {|
        Chroma.collectionName := collectionName;
        Chroma.dimension := dimension;
        Chroma.url := url;
        Chroma.host := host;
        Chroma.port := port;
        Chroma.distance := distance
      |}
  else if str_is storeType "pinecone" then
    let apiKey := VECTOR_STORE_API_KEY env in
    let indexName := collectionName in
    let namespace := PINECONE_NAMESPACE env in
    let metric := str_or (PINECONE_METRIC env) (VECTOR_STORE_DISTANCE env) in
    if negb (str_truthy apiKey) then
      in_memory_config collectionName dimension maxVectors (Some "pinecone")
    else
      pinecone {|
        Pinecone.collectionName := indexName;
        Pinecone.dimension := dimension;
        Pinecone.apiKey := apiKey;
        Pinecone.indexName := indexName;
        Pinecone.namespace := namespace;
        Pinecone.metric := metric
      |}
  else
    in_memory_config collectionName dimension maxVectors None.

(** ** [getWorkspaceVectorStoreConfigFromEnv] (lines 524-734) *)

(** The port of the workspace store (lines 574-578, 609-613, 644-648). *)
Definition workspace_port (env : Env) : option number :=
  if Number_isNaN (WORKSPACE_VECTOR_STORE_PORT env)
  then if Number_isNaN (VECTOR_STORE_PORT env) then None else VECTOR_STORE_PORT env
  else WORKSPACE_VECTOR_STORE_PORT env.

Definition getWorkspaceVectorStoreConfigFromEnv (env : Env) (agentConfig : jsval)
    : VectorStoreConfig :=
  let storeType := str_or (WORKSPACE_VECTOR_STORE_TYPE env) (VECTOR_STORE_TYPE env) in
  let collectionName :=
    Some (str_or_lit (WORKSPACE_VECTOR_STORE_COLLECTION env) "workspace_memory") in
  let dimension :=
    number_or (WORKSPACE_VECTOR_STORE_DIMENSION env)
      (number_or (VECTOR_STORE_DIMENSION env) (num 1536)) in
  let maxVectors :=
    number_or (WORKSPACE_VECTOR_STORE_MAX_VECTORS env)
      (number_or (VECTOR_STORE_MAX_VECTORS env) (num 10000)) in
  let dimension := override_dimension agentConfig dimension in
  if str_is storeType "qdrant" then
    let host := str_or (WORKSPACE_VECTOR_STORE_HOST env) (VECTOR_STORE_HOST env) in
    let url := str_or (WORKSPACE_VECTOR_STORE_URL env) (VECTOR_STORE_URL env) in
    let port := workspace_port env in
    let apiKey := str_or (WORKSPACE_VECTOR_STORE_API_KEY env) (VECTOR_STORE_API_KEY env) in
    let distance :=
      str_or (WORKSPACE_VECTOR_STORE_DISTANCE env) (VECTOR_STORE_DISTANCE env) in
    let onDisk := WORKSPACE_VECTOR_STORE_ON_DISK env in
    if negb (str_truthy url) && negb (str_truthy host) then
      in_memory_config collectionName dimension maxVectors (Some "qdrant-workspace")
    else
      qdrant {|
        Qdrant.collectionName := collectionName;
        Qdrant.dimension := dimension;
        Qdrant.url := url;
        Qdrant.host := host;
        Qdrant.port := port;
        Qdrant.apiKey := apiKey;
        Qdrant.distance := distance;
        Qdrant.onDisk := onDisk
      |}
  else if str_is storeType "milvus" then
    let host := str_or (WORKSPACE_VECTOR_STORE_HOST env) (VECTOR_STORE_HOST env) in
    let url := str_or (WORKSPACE_VECTOR_STORE_URL env) (VECTOR_STORE_URL env) in
    let port := workspace_port env in
    let username :=
      str_or (WORKSPACE_VECTOR_STORE_USERNAME env) (VECTOR_STORE_USERNAME env) in
    let password :=
      str_or (WORKSPACE_VECTOR_STORE_PASSWORD env) (VECTOR_STORE_PASSWORD env) in
    let token := str_or (WORKSPACE_VECTOR_STORE_API_KEY env) (VECTOR_STORE_API_KEY env) in
    if negb (str_truthy url) && negb (str_truthy host) then
      in_memory_config collectionName dimension maxVectors (Some "milvus-workspace")
    else
      milvus {|
        Milvus.collectionName := collectionName;
        Milvus.dimension := dimension;
        Milvus.url := url;
        Milvus.host := host;
        Milvus.port := port;
        Milvus.username := username;
        Milvus.password := password;
        Milvus.token := token
      |}
  else if str_is storeType "chroma" then
    let host := str_or (WORKSPACE_VECTOR_STORE_HOST env) (VECTOR_STORE_HOST env) in
    let url := str_or (WORKSPACE_VECTOR_STORE_URL env) (VECTOR_STORE_URL env) in
    let port := workspace_port env in
    let envDistance :=
      str_or (WORKSPACE_VECTOR_STORE_DISTANCE env) (VECTOR_STORE_DISTANCE env) in
    let distance := chroma_distance envDistance in
    if negb (str_truthy url) && negb (str_truthy host) then
      in_memory_config collectionName dimension maxVectors (Some "chroma-workspace")
    else
      chroma {|
        Chroma.collectionName := collectionName;
        Chroma.dimension := dimension;
        Chroma.url := url;
        Chroma.host := host;
        Chroma.port := port;
        Chroma.distance := distance
      |}
  else if str_is storeType "pinecone" then
    let apiKey := VECTOR_STORE_API_KEY env in
    let indexName := collectionName in
    let namespace := PINECONE_NAMESPACE env in
    let metric := str_or (PINECONE_METRIC env) (VECTOR_STORE_DISTANCE env) in
    if negb (str_truthy apiKey) then
      in_memory_config collectionName dimension maxVectors (Some "pinecone-workspace")
    else
      pinecone {|
        Pinecone.collectionName := indexName;
        Pinecone.dimension := dimension;
        Pinecone.apiKey := apiKey;
        Pinecone.indexName := indexName;
        Pinecone.namespace :=
          match namespace with
          | Some ns => if negb (String.eqb ns "") then Some (ns +:+ "-workspace")
                       else Some "workspace"
          | None => Some "workspace"
          end;
        Pinecone.metric := metric
      |}
  else
    in_memory_config collectionName dimension maxVectors None.

(** ** Asynchronous calls on a manager

    The factories create one manager object, await its methods in
    sequence and either return a value or throw.  A computation threads the
    manager's state and the log of the methods called on it. *)

Inductive Outcome (A : Type) : Type :=
| Returned (a : A)
| Thrown (message : string).
Arguments Returned {A} a.
Arguments Thrown {A} message.

Inductive StoreName : Type := knowledge | reflection | workspace.

Inductive Call : Type :=
| connect_call
| getStore_call (name : StoreName)
| disconnect_call.

(** The interface the factories use of [DualCollectionVectorManager] and
    [MultiCollectionVectorManager] (both outside this module): the
    constructor, [connect] (its result's truthiness, or the error it
    rejects with), [getStore] and [disconnect]. *)
Class Manager (M VectorStore : Type) : Type := {
  new_manager : VectorStoreConfig -> M;
  connect : M -> Outcome bool * M;
  getStore : M -> StoreName -> option VectorStore;
  disconnect : M -> Outcome unit * M
}.

Section Async.
Context {M VectorStore : Type} `{!Manager M VectorStore}.

Definition Async (A : Type) : Type := M * list Call -> Outcome A * (M * list Call).

Definition ret {A} (a : A) : Async A := fun s => (Returned a, s).

Definition throw {A} (message : string) : Async A := fun s => (Thrown message, s).

Definition bind {A B} (c : Async A) (k : A -> Async B) : Async B :=
  fun s =>
    match c s with
    | (Returned a, s') => k a s'
    | (Thrown e, s') => (Thrown e, s')
    end.

(** [try { c } catch (error) { handler(error) }]. *)
Definition try_catch {A} (c : Async A) (handler : string -> Async A) : Async A :=
  fun s =>
    match c s with
    | (Returned a, s') => (Returned a, s')
    | (Thrown e, s') => handler e s'
    end.

(** [await manager.connect()]. *)
Definition await_connect : Async bool :=
  fun '(m, log) => let '(r, m') := connect m in (r, (m', log ++ [connect_call])).

(** [manager.getStore(name)]. *)
Definition call_getStore (name : StoreName) : Async (option VectorStore) :=
  fun '(m, log) => (Returned (getStore m name), (m, log ++ [getStore_call name])).

(** [await manager.disconnect().catch(() => {})]: the rejection of
    [disconnect] is dropped. *)
Definition await_disconnect_ignoring_errors : Async unit :=
  fun '(m, log) =>
    let '(_, m') := disconnect m in (Returned tt, (m', log ++ [disconnect_call])).
End Async.

Notation "'let*' x := c 'in' k" := (bind c (fun x => k))
  (at level 10, x name, c at level 200, k at level 200, only parsing).

(** The stores of a factory result; the [manager] property is the manager
    the computation ends with. *)
Record DualCollectionVectorFactory (VectorStore : Type) : Type := {
  knowledgeStore : VectorStore;
  reflectionStore : option VectorStore
}.
Arguments knowledgeStore {VectorStore} _.
Arguments reflectionStore {VectorStore} _.

Record MultiCollectionVectorFactory (VectorStore : Type) : Type := {
  multi_knowledgeStore : VectorStore;
  multi_reflectionStore : option VectorStore;
  multi_workspaceStore : option VectorStore
}.
Arguments multi_knowledgeStore {VectorStore} _.
Arguments multi_reflectionStore {VectorStore} _.
Arguments multi_workspaceStore {VectorStore} _.

Section Factories.
Context {M VectorStore : Type} `{!Manager M VectorStore}.

(** [createDualCollectionVectorStoreInternal] (lines 240-304), from the
    point where the manager exists. *)
Definition createDualCollectionVectorStoreInternal_body (env : Env)
    : Async (DualCollectionVectorFactory VectorStore) :=
  let reflectionCollection :=
    trim (str_or_lit (REFLECTION_VECTOR_STORE_COLLECTION env) "") in
  if String.eqb reflectionCollection "" then
    let* _ := await_connect in
    let* knowledgeStore := call_getStore knowledge in
    match knowledgeStore with
    | None => throw "Failed to get knowledge store from dual collection manager"
    | Some knowledgeStore =>
        ret {| knowledgeStore := knowledgeStore; reflectionStore := None |}
    end
  else
    try_catch
      (let* _ := await_connect in
       let* knowledgeStore := call_getStore knowledge in
       let* reflectionStore := call_getStore reflection in
       match knowledgeStore with
       | None => throw "Failed to get knowledge store from dual collection manager"
       | Some knowledgeStore =>
           ret {| knowledgeStore := knowledgeStore;
                  reflectionStore := reflectionStore |}
       end)
      (fun error =>
         let* _ := await_disconnect_ignoring_errors in
         throw error).

(** The whole call: [new DualCollectionVectorManager(config)], then the
    body.  The result is the outcome, the manager and the calls made. *)
Definition createDualCollectionVectorStoreInternal (env : Env)
    (config : VectorStoreConfig)
    : Outcome (DualCollectionVectorFactory VectorStore) * (M * list Call) :=
  createDualCollectionVectorStoreInternal_body env (new_manager config, []).

(** [createMultiCollectionVectorStoreInternal] (lines 788-850); the
    dynamic import of the manager's module is taken to succeed. *)
Definition createMultiCollectionVectorStoreInternal_body
    : Async (MultiCollectionVectorFactory VectorStore) :=
  try_catch
    (let* connected := await_connect in
     if negb connected
     then throw "Failed to connect multi collection vector manager"
     else
       let* knowledgeStore := call_getStore knowledge in
       let* reflectionStore := call_getStore reflection in
       let* workspaceStore := call_getStore workspace in
       match knowledgeStore with
       | None => throw "Failed to get knowledge store from multi collection manager"
       | Some knowledgeStore =>
           ret {| multi_knowledgeStore := knowledgeStore;
                  multi_reflectionStore := reflectionStore;
                  multi_workspaceStore := workspaceStore |}
       end)
    (fun error =>
       let* _ := await_disconnect_ignoring_errors in
       throw error).

Definition createMultiCollectionVectorStoreInternal (config : VectorStoreConfig)
    : Outcome (MultiCollectionVectorFactory VectorStore) * (M * list Call) :=
  createMultiCollectionVectorStoreInternal_body (new_manager config, []).
End Factories.

(** ** The service cache *)

Module ServiceCache.

(** A handle is a constructed value together with the construction that
    produced it, which is its identity as an instance. *)
Record Handle (V : Type) : Type := { instance : nat; value : V }.
Arguments instance {V} _.
Arguments value {V} _.

Inductive Entry (V : Type) : Type :=
| pending (p : nat)
| ready (h : Handle V).
Arguments pending {V} p.
Arguments ready {V} h.

(** What a caller of [getOrCreate] holds: a handle that is there already,
    or the construction it waits for. *)
Inductive Awaited (V : Type) : Type :=
| now (h : Handle V)
| later (p : nat).
Arguments now {V} h.
Arguments later {V} p.

(** The cache: its entries, the factory invocations so far (the key and
    the outcome the construction ends with), and the outcomes of the
    constructions that have ended. *)
Record t (V : Type) : Type := {
  entries : gmap string (Entry V);
  invocations : list (string * Outcome V);
  settled : gmap nat (Outcome (Handle V))
}.
Arguments entries {V} _.
Arguments invocations {V} _.
Arguments settled {V} _.

Definition empty {V : Type} : t V :=
  {| entries := ∅; invocations := []; settled := ∅ |}.

(** Modelled from the spec: [ServiceCache.getOrCreate] of
    [../brain/memory/service-cache.js], which is not among the sources.
    The specification (4.3) has: a call for a key whose construction is
    in flight awaits that construction instead of invoking the factory
    again; once a key has resolved, every call returns the same handle
    without invoking the factory; otherwise the factory is invoked and
    the entry is created. *)
Definition getOrCreate {V : Type} (key : string) (factory : Outcome V) (c : t V)
    : Awaited V * t V :=
  match entries c !! key with
  | Some (ready h) => (now h, c)
  | Some (pending p) => (later p, c)
  | None =>
      let p := length (invocations c) in
      (later p,
       {| entries := <[key := pending p]> (entries c);
          invocations := invocations c ++ [(key, factory)];
          settled := settled c |})
  end.

(** Modelled from the spec: the end of a construction in
    [ServiceCache.getOrCreate] (section 4.3): on success the key resolves
    to the handle, on failure the entry is cleared and the waiters
    observe the failure. *)
Definition complete {V : Type} (p : nat) (c : t V) : t V :=
  match invocations c !! p, settled c !! p with
  | Some (key, Returned v), None =>
      let h := {| instance := p; value := v |} in
      {| entries := <[key := ready h]> (entries c);
         invocations := invocations c;
         settled := <[p := Returned h]> (settled c) |}
  | Some (key, Thrown e), None =>
      {| entries := delete key (entries c);
         invocations := invocations c;
         settled := <[p := Thrown e]> (settled c) |}
  | _, _ => c
  end.

(** What an awaiting caller has received so far, if anything. *)
Definition received {V : Type} (c : t V) (a : Awaited V) : option (Outcome (Handle V)) :=
  match a with
  | now h => Some (Returned h)
  | later p => settled c !! p
  end.

(** The number of factory invocations made for a key. *)
Definition invocations_for {V : Type} (key : string) (c : t V) : nat :=
  length (filter (fun i => i.1 = key) (invocations c)).

(** The calls of a list of requests, each a key and a factory, one after
    the other; the result lists what each caller awaits. *)
Fixpoint getOrCreate_each {V : Type} (requests : list (string * Outcome V)) (c : t V)
    : list (Awaited V) * t V :=
  match requests with
  | [] => ([], c)
  | (key, factory) :: rest =>
      let '(a, c') := getOrCreate key factory c in
      let '(others, c'') := getOrCreate_each rest c' in
      (a :: others, c'')
  end.

(** Every construction that has ended had been started. *)
Definition wf {V : Type} (c : t V) : Prop :=
  forall p, is_Some (settled c !! p) -> (p < length (invocations c))%nat.

End ServiceCache.

(** ** The entry points that go through the service cache *)

Section FromEnv.
Context {M VectorStore : Type} `{!Manager M VectorStore}.

(** [createServiceKey] of [../brain/memory/service-cache.js]: some
    function of the service type and the listed properties. *)
Variable createServiceKey : string -> list (string * jsval) -> string.

Definition optional_string (s : option string) : jsval :=
  match s with
  | Some x => JString x
  | None => JUndefined
  end.

(** The cache key of lines 226-232. *)
Definition dual_cacheKey (env : Env) (config : VectorStoreConfig) : string :=
  createServiceKey "dualCollectionVectorStore"
    [ ("type", JString (type config));
      ("collection", optional_string (collectionName config));
      ("reflectionCollection",
        JString (str_or_lit (REFLECTION_VECTOR_STORE_COLLECTION env) ""));
      ("dimension", JNumber (dimension config)) ].

(** [createDualCollectionVectorStoreFromEnv] (lines 216-238) up to the
    promise it returns: the call runs without suspension until
    [getOrCreate] has been entered.  The closure handed over stands for
    the construction it starts; the value it yields is the manager
    together with the stores. *)
Definition createDualCollectionVectorStoreFromEnv (env : Env) (agentConfig : jsval)
    (cache : ServiceCache.t (DualCollectionVectorFactory VectorStore * M))
    : ServiceCache.Awaited (DualCollectionVectorFactory VectorStore * M)
      * ServiceCache.t (DualCollectionVectorFactory VectorStore * M) :=
  let config := getVectorStoreConfigFromEnv env agentConfig in
  let cacheKey := dual_cacheKey env config in
  ServiceCache.getOrCreate cacheKey
    (match createDualCollectionVectorStoreInternal env config with
     | (Returned stores, (manager, _)) => Returned (stores, manager)
     | (Thrown e, _) => Thrown e
     end)
    cache.

(** The cache key of lines 772-780. *)
Definition multi_cacheKey (env : Env) (config : VectorStoreConfig) : string :=
  createServiceKey "multiCollectionVectorStore"
    [ ("type", JString (type config));
      ("collection", optional_string (collectionName config));
      ("reflectionCollection",
        JString (str_or_lit (REFLECTION_VECTOR_STORE_COLLECTION env) ""));
      ("workspaceCollection",
        JString (str_or_lit (WORKSPACE_VECTOR_STORE_COLLECTION env) "workspace_memory"));
      ("workspaceEnabled", JBool (USE_WORKSPACE_MEMORY env));
      ("dimension", JNumber (dimension config)) ].

(** [createMultiCollectionVectorStoreFromEnv] (lines 759-786). *)
Definition createMultiCollectionVectorStoreFromEnv (env : Env) (agentConfig : jsval)
    (cache : ServiceCache.t (MultiCollectionVectorFactory VectorStore * M))
    : ServiceCache.Awaited (MultiCollectionVectorFactory VectorStore * M)
      * ServiceCache.t (MultiCollectionVectorFactory VectorStore * M) :=
  let config := getVectorStoreConfigFromEnv env agentConfig in
  let cacheKey := multi_cacheKey env config in
  ServiceCache.getOrCreate cacheKey
    (match createMultiCollectionVectorStoreInternal config with
     | (Returned stores, (manager, _)) => Returned (stores, manager)
     | (Thrown e, _) => Thrown e
     end)
    cache.

(** [calls] arriving one after the other, none of them suspended before
    it has entered [getOrCreate]; the result lists what each caller
    awaits, in the order of the calls. *)
Fixpoint dual_calls (calls : list (Env * jsval))
    (cache : ServiceCache.t (DualCollectionVectorFactory VectorStore * M))
    : list (ServiceCache.Awaited (DualCollectionVectorFactory VectorStore * M))
      * ServiceCache.t (DualCollectionVectorFactory VectorStore * M) :=
  match calls with
  | [] => ([], cache)
  | (env, agentConfig) :: rest =>
      let '(a, cache') := createDualCollectionVectorStoreFromEnv env agentConfig cache in
      let '(others, cache'') := dual_calls rest cache' in
      (a :: others, cache'')
  end.

Fixpoint multi_calls (calls : list (Env * jsval))
    (cache : ServiceCache.t (MultiCollectionVectorFactory VectorStore * M))
    : list (ServiceCache.Awaited (MultiCollectionVectorFactory VectorStore * M))
      * ServiceCache.t (MultiCollectionVectorFactory VectorStore * M) :=
  match calls with
  | [] => ([], cache)
  | (env, agentConfig) :: rest =>
      let '(a, cache') := createMultiCollectionVectorStoreFromEnv env agentConfig cache in
      let '(others, cache'') := multi_calls rest cache' in
      (a :: others, cache'')
  end.
(** The key and the closure that a call of
    [createDualCollectionVectorStoreFromEnv] hands to [getOrCreate]. *)
Definition dual_request (call : Env * jsval)
    : string * Outcome (DualCollectionVectorFactory VectorStore * M) :=
  let config := getVectorStoreConfigFromEnv call.1 call.2 in
  (dual_cacheKey call.1 config,
   match createDualCollectionVectorStoreInternal call.1 config with
   | (Returned stores, (manager, _)) => Returned (stores, manager)
   | (Thrown e, _) => Thrown e
   end).

(** The same for [createMultiCollectionVectorStoreFromEnv]. *)
Definition multi_request (call : Env * jsval)
    : string * Outcome (MultiCollectionVectorFactory VectorStore * M) :=
  let config := getVectorStoreConfigFromEnv call.1 call.2 in
  (multi_cacheKey call.1 config,
   match createMultiCollectionVectorStoreInternal config with
   | (Returned stores, (manager, _)) => Returned (stores, manager)
   | (Thrown e, _) => Thrown e
   end).
End FromEnv.

(** ** Managers *)

(** A manager with prescribed answers, for concrete runs: what [connect]
    and [disconnect] end with and which stores [getStore] hands out once
    connected.  Stores are numbered. *)
Module Scripted.
Record Script : Type := {
  connect_outcome : Outcome bool;
  disconnect_outcome : Outcome unit;
  stores : StoreName -> option nat
}.

Record t : Type := {
  config : VectorStoreConfig;
  connected : bool;
  disconnects : nat
}.

Definition manager (script : Script) : Manager t nat := {|
  new_manager c := {| config := c; connected := false; disconnects := 0 |};
  connect m :=
    (connect_outcome script,
     {| config := config m;
        connected := match connect_outcome script with
                     | Returned _ => true
                     | Thrown _ => false
                     end;
        disconnects := disconnects m |});
  getStore m name := if connected m then stores script name else None;
  disconnect m :=
    (disconnect_outcome script,
     {| config := config m; connected := false; disconnects := S (disconnects m) |})
|}.
End Scripted.

(** The collection orchestrator behind [DualCollectionVectorManager]
    ([./dual-collection-manager.js]), which is not among the sources: its
    methods follow the specification (4.4 and 4.5).  The workspace slot
    belongs to the multi collection manager and stays empty here. *)
Module Orchestrator.
Section Orchestrator.
Context {VectorStore : Type}.
(** [StorageFactory.create]: one call is one connection attempt. *)
Variable create : VectorStoreConfig -> Outcome VectorStore.
(** The configuration of the reflection collection, which the
    specification derives from the base configuration without saying
    how. *)
Variable reflection_config : VectorStoreConfig -> VectorStoreConfig.
Variable env : Env.

Record t : Type := {
  baseConfig : VectorStoreConfig;
  knowledge_slot : option VectorStore;
  reflection_slot : option VectorStore;
  (** the construction attempts made, in order *)
  attempts : list VectorStoreConfig;
  (** the handles torn down, in order *)
  torn_down : list VectorStore
}.

Definition new (config : VectorStoreConfig) : t :=
  {| baseConfig := config; knowledge_slot := None; reflection_slot := None;
     attempts := []; torn_down := [] |}.

(** Modelled from the spec: [DualCollectionVectorManager.connect], which
    is not among the sources.  Specification 4.4, steps 1, 2 and 4: the
    knowledge collection is always constructed from the base
    configuration; a blank or absent reflection collection name leaves the
    reflection slot unset; a construction failure tears down what this call
    constructed and propagates. *)
Definition connect (o : t) : Outcome bool * t :=
  let base := baseConfig o in
  match create base with
  | Thrown e =>
      (Thrown e,
       {| baseConfig := base; knowledge_slot := None; reflection_slot := None;
          attempts := attempts o ++ [base]; torn_down := torn_down o |})
  | Returned k =>
      if String.eqb (trim (str_or_lit (REFLECTION_VECTOR_STORE_COLLECTION env) "")) ""
      then
        (Returned true,
         {| baseConfig := base; knowledge_slot := Some k; reflection_slot := None;
            attempts := attempts o ++ [base]; torn_down := torn_down o |})
      else
        match create (reflection_config base) with
        | Thrown e =>
            (Thrown e,
             {| baseConfig := base; knowledge_slot := None; reflection_slot := None;
                attempts := attempts o ++ [base; reflection_config base];
                torn_down := torn_down o ++ [k] |})
        | Returned r =>
            (Returned true,
             {| baseConfig := base; knowledge_slot := Some k;
                reflection_slot := Some r;
                attempts := attempts o ++ [base; reflection_config base];
                torn_down := torn_down o |})
        end
  end.

(** Modelled from the spec: [DualCollectionVectorManager.getStore], which
    is not among the sources: the handle of an enabled slot, [null] for a
    disabled one (specification 3, CollectionSet). *)
Definition getStore (o : t) (name : StoreName) : option VectorStore :=
  match name with
  | knowledge => knowledge_slot o
  | reflection => reflection_slot o
  | workspace => None
  end.

(** Modelled from the spec: [DualCollectionVectorManager.disconnect],
    which is not among the sources; the specification (4.5) has
    [disconnect] never throw. *)
Definition disconnect (o : t) : Outcome unit * t :=
  (Returned tt,
   {| baseConfig := baseConfig o; knowledge_slot := None; reflection_slot := None;
      attempts := attempts o;
      torn_down := torn_down o ++ option_list (knowledge_slot o)
                               ++ option_list (reflection_slot o) |}).

Definition manager : Manager t VectorStore :=
  Build_Manager t VectorStore new connect getStore disconnect.
End Orchestrator.
End Orchestrator.

(** ** The single store factories *)

(** The calls [createVectorStore] makes on its manager. *)
Inductive StoreCall : Type :=
| store_connect_call
| getInfo_call
| isConnected_call
| store_disconnect_call.

(** The interface [createVectorStore] uses of [VectorStoreManager]
    ([./manager.js], outside this module): the constructor, [connect],
    which resolves to the connected store or rejects, [disconnect], and the
    two methods called for the log entry inside the [try] block,
    [manager.getInfo()] (with the [backend.type] read off its result) and
    [manager.isConnected()], each of which yields a value or throws. *)
Class VectorStoreManager (M VectorStore : Type) : Type := {
  new_store_manager : VectorStoreConfig -> M;
  store_connect : M -> Outcome VectorStore * M;
  store_getInfo : M -> Outcome string * M;
  store_isConnected : M -> Outcome bool * M;
  store_disconnect : M -> Outcome unit * M
}.

(** The [store] of a [VectorStoreFactory]; its [manager] is the manager
    the computation ends with. *)
Record VectorStoreFactory (VectorStore : Type) : Type := {
  store : VectorStore
}.
Arguments store {VectorStore} _.

Section StoreAsync.
Context {M : Type}.

(** A computation on a [VectorStoreManager]: it threads the manager's
    state and the list of the calls made on it. *)
Definition StoreAsync (A : Type) : Type :=
  M * list StoreCall -> Outcome A * (M * list StoreCall).

Definition store_ret {A} (a : A) : StoreAsync A := fun s => (Returned a, s).

Definition store_throw {A} (message : string) : StoreAsync A :=
  fun s => (Thrown message, s).

Definition store_bind {A B} (c : StoreAsync A) (k : A -> StoreAsync B) : StoreAsync B :=
  fun s =>
    match c s with
    | (Returned a, s') => k a s'
    | (Thrown e, s') => (Thrown e, s')
    end.

(** [try { c } catch (error) { handler(error) }]. *)
Definition store_try_catch {A} (c : StoreAsync A) (handler : string -> StoreAsync A)
    : StoreAsync A :=
  fun s =>
    match c s with
    | (Returned a, s') => (Returned a, s')
    | (Thrown e, s') => handler e s'
    end.
End StoreAsync.

Notation "'let+' x := c 'in' k" := (store_bind c (fun x => k))
  (at level 10, x name, c at level 200, k at level 200, only parsing).

Section SingleStore.
Context {M VectorStore : Type} `{!VectorStoreManager M VectorStore}.

(** [await manager.connect()] on a [VectorStoreManager]. *)
Definition await_store_connect : StoreAsync VectorStore :=
  fun '(m, log) =>
    let '(r, m') := store_connect m in (r, (m', log ++ [store_connect_call])).

(** [manager.getInfo().backend.type]. *)
Definition call_getInfo : StoreAsync string :=
  fun '(m, log) => let '(r, m') := store_getInfo m in (r, (m', log ++ [getInfo_call])).

(** [manager.isConnected()]. *)
Definition call_isConnected : StoreAsync bool :=
  fun '(m, log) =>
    let '(r, m') := store_isConnected m in (r, (m', log ++ [isConnected_call])).

(** [await manager.disconnect().catch(() => {})]. *)
Definition await_store_disconnect_ignoring_errors : StoreAsync unit :=
  fun '(m, log) =>
    let '(_, m') := store_disconnect m in
    (Returned tt, (m', log ++ [store_disconnect_call])).

(** [createVectorStore] (lines 82-117), from the point where the manager
    exists.  The two calls after [connect] are the arguments of the log
    entry of lines 98-102, evaluated in the order written. *)
Definition createVectorStore_body : StoreAsync (VectorStoreFactory VectorStore) :=
  store_try_catch
    (let+ store := await_store_connect in
     let+ _ := call_getInfo in
     let+ _ := call_isConnected in
     store_ret {| store := store |})
    (fun error =>
       let+ _ := await_store_disconnect_ignoring_errors in
       store_throw error).

(** The whole call: [new VectorStoreManager(config)], then the body. *)
Definition createVectorStore (config : VectorStoreConfig)
    : Outcome (VectorStoreFactory VectorStore) * (M * list StoreCall) :=
  createVectorStore_body (new_store_manager config, []).

(** The configuration [createDefaultVectorStore] builds (lines 138-148);
    a parameter left out or [undefined] takes its default. *)
Definition default_config (collectionName : option string) (dimension : option number)
    : VectorStoreConfig :=
  let collectionName :=
    match collectionName with
    | Some name => name
    | None => "knowledge_memory"
    end in
  let dimension :=
    match dimension with
    | Some d => d
    | None => num 1536
    end in
  in_memory {|
    InMemory.collectionName := Some collectionName;
    InMemory.dimension := dimension;
    InMemory.maxVectors := num 10000;
    InMemory._fallbackFrom := None
  |}.

(** [createDefaultVectorStore] (lines 138-148). *)
Definition createDefaultVectorStore (collectionName : option string)
    (dimension : option number)
    : Outcome (VectorStoreFactory VectorStore) * (M * list StoreCall) :=
  createVectorStore (default_config collectionName dimension).

(** [createVectorStoreFromEnv] (lines 181-194). *)
Definition createVectorStoreFromEnv (env : Env) (agentConfig : jsval)
    : Outcome (VectorStoreFactory VectorStore) * (M * list StoreCall) :=
  let config := getVectorStoreConfigFromEnv env agentConfig in
  createVectorStore config.

(** [createWorkspaceVectorStoreFromEnv] (lines 884-900). *)
Definition createWorkspaceVectorStoreFromEnv (env : Env) (agentConfig : jsval)
    : Outcome (VectorStoreFactory VectorStore) * (M * list StoreCall) :=
  let config := getWorkspaceVectorStoreConfigFromEnv env agentConfig in
  createVectorStore config.
End SingleStore.

(** A [VectorStoreManager] with prescribed answers, for concrete runs; it
    keeps the configuration it was constructed with. *)
Module ScriptedStore.
Record Script : Type := {
  connect_outcome : Outcome nat;
  getInfo_outcome : Outcome string;
  disconnect_outcome : Outcome unit
}.

Record t : Type := {
  config : VectorStoreConfig;
  connected : bool;
  disconnects : nat
}.

Definition manager (script : Script) : VectorStoreManager t nat := {|
  new_store_manager c := {| config := c; connected := false; disconnects := 0 |};
  store_getInfo m := (getInfo_outcome script, m);
  store_isConnected m := (Returned (connected m), m);
  store_connect m :=
    (connect_outcome script,
     {| config := config m;
        connected := match connect_outcome script with
                     | Returned _ => true
                     | Thrown _ => false
                     end;
        disconnects := disconnects m |});
  store_disconnect m :=
    (disconnect_outcome script,
     {| config := config m; connected := false; disconnects := S (disconnects m) |})
|}.
End ScriptedStore.

(** ** [isQdrantConfigAvailable] (lines 921-927)

    [process.env] maps variable names to strings. *)
Definition isQdrantConfigAvailable (process_env : gmap string string) : bool :=
  str_truthy
    (str_or
       (str_or (process_env !! "VECTOR_STORE_URL") (process_env !! "VECTOR_STORE_HOST"))
       (process_env !! "VECTOR_STORE_PORT")).

(** ** The refinement of the configuration schema

    The callback given to [superRefine] in [config.ts] (lines 1244-1303),
    on a configuration the union schema has let through. *)

Record Issue : Type := {
  message : string;
  path : list string
}.

(** The character class [[a-zA-Z0-9_-]]. *)
Definition name_char (c : ascii) : bool :=
  let n := nat_of_ascii c in
  (((97 <=? n) && (n <=? 122))
   || ((65 <=? n) && (n <=? 90))
   || ((48 <=? n) && (n <=? 57))
   || (n =? 95) || (n =? 45))%nat.

Fixpoint all_name_chars (s : string) : bool :=
  match s with
  | EmptyString => true
  | String c rest => name_char c && all_name_chars rest
  end.

(** [/^[a-zA-Z0-9_-]+$/.test(s)]: one character or more, each of the
    class, from the start to the end of the input. *)
Definition collection_name_format (s : string) : bool :=
  negb (String.eqb s "") && all_name_chars s.

(** The string a value that may be [undefined] is tested as. *)
Definition tested_string (s : option string) : string :=
  match s with
  | Some x => x
  | None => "undefined"
  end.

Definition superRefine (data : VectorStoreConfig) : list Issue :=
  (match data with
   | qdrant c =>
       if negb (str_truthy (Qdrant.url c)) && negb (str_truthy (Qdrant.host c))
       then [ {| message := "Qdrant backend requires either 'url' or 'host' to be specified";
                 path := ["url"] |} ]
       else []
   | _ => []
   end)
  ++ (match data with
      | milvus c =>
          if negb (str_truthy (Milvus.url c)) && negb (str_truthy (Milvus.host c))
          then [ {| message := "Milvus backend requires either 'url' or 'host' to be specified";
                    path := ["url"] |} ]
          else []
      | _ => []
      end)
  ++ (match data with
      | chroma c =>
          if negb (str_truthy (Chroma.url c)) && negb (str_truthy (Chroma.host c))
          then [ {| message := "ChromaDB backend requires either 'url' or 'host' to be specified";
                    path := ["url"] |} ]
          else []
      | _ => []
      end)
  ++ (match data with
      | pinecone c =>
          (if negb (str_truthy (Pinecone.apiKey c))
           then [ {| message := "Pinecone backend requires 'apiKey' to be specified";
                     path := ["apiKey"] |} ]
           else [])
          ++ (if negb (str_truthy (Pinecone.indexName c))
              then [ {| message := "Pinecone backend requires 'indexName' to be specified";
                        path := ["indexName"] |} ]
              else [])
      | _ => []
      end)
  ++ (if negb (collection_name_format (tested_string (collectionName data)))
      then [ {| message :=
                  "Collection name must contain only letters, numbers, underscores, and hyphens";
                path := ["collectionName"] |} ]
      else []).

(** ** Concrete inputs *)

(** One property of the environment object. *)
Inductive Setting : Type :=
| text (name value : string)
| numeric (name : string) (value : number)
| flag (name : string) (value : bool).

Fixpoint text_of (name : string) (settings : list Setting) : option string :=
  match settings with
  | [] => None
  | text n v :: rest => if String.eqb n name then Some v else text_of name rest
  | _ :: rest => text_of name rest
  end.

Fixpoint numeric_of (name : string) (settings : list Setting) : option number :=
  match settings with
  | [] => None
  | numeric n v :: rest => if String.eqb n name then Some v else numeric_of name rest
  | _ :: rest => numeric_of name rest
  end.

Fixpoint flag_of (name : string) (settings : list Setting) : option bool :=
  match settings with
  | [] => None
  | flag n v :: rest => if String.eqb n name then Some v else flag_of name rest
  | _ :: rest => flag_of name rest
  end.

(** The environment object with the listed properties and every other
    property [undefined] ([USE_WORKSPACE_MEMORY]: false). *)
Definition env_of (settings : list Setting) : Env := {|
  VECTOR_STORE_TYPE := text_of "VECTOR_STORE_TYPE" settings;
  VECTOR_STORE_COLLECTION := text_of "VECTOR_STORE_COLLECTION" settings;
  VECTOR_STORE_DIMENSION := numeric_of "VECTOR_STORE_DIMENSION" settings;
  VECTOR_STORE_MAX_VECTORS := numeric_of "VECTOR_STORE_MAX_VECTORS" settings;
  VECTOR_STORE_HOST := text_of "VECTOR_STORE_HOST" settings;
  VECTOR_STORE_URL := text_of "VECTOR_STORE_URL" settings;
  VECTOR_STORE_PORT := numeric_of "VECTOR_STORE_PORT" settings;
  VECTOR_STORE_API_KEY := text_of "VECTOR_STORE_API_KEY" settings;
  VECTOR_STORE_DISTANCE := text_of "VECTOR_STORE_DISTANCE" settings;
  VECTOR_STORE_ON_DISK := flag_of "VECTOR_STORE_ON_DISK" settings;
  VECTOR_STORE_USERNAME := text_of "VECTOR_STORE_USERNAME" settings;
  VECTOR_STORE_PASSWORD := text_of "VECTOR_STORE_PASSWORD" settings;
  PINECONE_NAMESPACE := text_of "PINECONE_NAMESPACE" settings;
  PINECONE_METRIC := text_of "PINECONE_METRIC" settings;
  REFLECTION_VECTOR_STORE_COLLECTION :=
    text_of "REFLECTION_VECTOR_STORE_COLLECTION" settings;
  USE_WORKSPACE_MEMORY :=
    match flag_of "USE_WORKSPACE_MEMORY" settings with
    | Some b => b
    | None => false
    end;
  WORKSPACE_VECTOR_STORE_TYPE := text_of "WORKSPACE_VECTOR_STORE_TYPE" settings;
  WORKSPACE_VECTOR_STORE_COLLECTION :=
    text_of "WORKSPACE_VECTOR_STORE_COLLECTION" settings;
  WORKSPACE_VECTOR_STORE_DIMENSION :=
    numeric_of "WORKSPACE_VECTOR_STORE_DIMENSION" settings;
  WORKSPACE_VECTOR_STORE_MAX_VECTORS :=
    numeric_of "WORKSPACE_VECTOR_STORE_MAX_VECTORS" settings;
  WORKSPACE_VECTOR_STORE_HOST := text_of "WORKSPACE_VECTOR_STORE_HOST" settings;
  WORKSPACE_VECTOR_STORE_URL := text_of "WORKSPACE_VECTOR_STORE_URL" settings;
  WORKSPACE_VECTOR_STORE_PORT := numeric_of "WORKSPACE_VECTOR_STORE_PORT" settings;
  WORKSPACE_VECTOR_STORE_API_KEY := text_of "WORKSPACE_VECTOR_STORE_API_KEY" settings;
  WORKSPACE_VECTOR_STORE_DISTANCE :=
    text_of "WORKSPACE_VECTOR_STORE_DISTANCE" settings;
  WORKSPACE_VECTOR_STORE_ON_DISK := flag_of "WORKSPACE_VECTOR_STORE_ON_DISK" settings;
  WORKSPACE_VECTOR_STORE_USERNAME :=
    text_of "WORKSPACE_VECTOR_STORE_USERNAME" settings;
  WORKSPACE_VECTOR_STORE_PASSWORD :=
    text_of "WORKSPACE_VECTOR_STORE_PASSWORD" settings
|}.

(** Qdrant requested, no host and no URL. *)
Definition env_qdrant_bare : Env :=
  env_of [ text "VECTOR_STORE_TYPE" "qdrant";
           text "VECTOR_STORE_COLLECTION" "docs" ].

(** Qdrant with a host, a distance and a dimension. *)
Definition env_qdrant_local : Env :=
  env_of [ text "VECTOR_STORE_TYPE" "qdrant";
           text "VECTOR_STORE_COLLECTION" "docs";
           text "VECTOR_STORE_HOST" "localhost";
           numeric "VECTOR_STORE_PORT" (num 6333);
           numeric "VECTOR_STORE_DIMENSION" (num 1024);
           text "VECTOR_STORE_DISTANCE" "Manhattan" ].

Definition env_chroma_local : Env :=
  env_of [ text "VECTOR_STORE_TYPE" "chroma";
           text "VECTOR_STORE_COLLECTION" "docs";
           text "VECTOR_STORE_HOST" "localhost";
           text "VECTOR_STORE_DISTANCE" "Euclidean" ].

Definition env_pinecone : Env :=
  env_of [ text "VECTOR_STORE_TYPE" "pinecone";
           text "VECTOR_STORE_COLLECTION" "docs";
           text "VECTOR_STORE_API_KEY" "secret";
           text "PINECONE_NAMESPACE" "team" ].

(** The reflection collection name is three spaces. *)
Definition env_blank_reflection : Env :=
  env_of [ text "VECTOR_STORE_COLLECTION" "docs";
           text "REFLECTION_VECTOR_STORE_COLLECTION" "   " ].

Definition env_with_reflection : Env :=
  env_of [ text "VECTOR_STORE_COLLECTION" "docs";
           text "REFLECTION_VECTOR_STORE_COLLECTION" "reflection_memory" ].

(** [{ embedding: { type: 'openai', dimensions: d } }]. *)
Definition agentConfig_with_dimensions (d : jsval) : jsval :=
  JObject [ ("embedding", JObject [ ("type", JString "openai"); ("dimensions", d) ]) ].

(** Qdrant for the workspace store: a host of its own, every other
    variable from the default set; the workspace port did not parse. *)
Definition env_workspace_qdrant : Env :=
  env_of [ text "VECTOR_STORE_TYPE" "qdrant";
           text "VECTOR_STORE_COLLECTION" "docs";
           text "VECTOR_STORE_HOST" "localhost";
           numeric "VECTOR_STORE_PORT" (num 6333);
           text "VECTOR_STORE_API_KEY" "secret";
           numeric "VECTOR_STORE_DIMENSION" (num 1024);
           text "WORKSPACE_VECTOR_STORE_HOST" "workspace.local";
           numeric "WORKSPACE_VECTOR_STORE_PORT" NaN ].

(** The reflection collection is disabled: its name is unset, or empty
    once white space is trimmed off. *)
Definition reflection_blank (env : Env) : Prop :=
  match REFLECTION_VECTOR_STORE_COLLECTION env with
  | Some name => trim name = ""
  | None => True
  end.

(** A backend that cannot be reached: [connect] rejects, and so does
    [disconnect]. *)
Definition unreachable : Scripted.Script := {|
  Scripted.connect_outcome := Thrown "connection refused";
  Scripted.disconnect_outcome := Thrown "not connected";
  Scripted.stores := fun _ => None
|}.

(** A backend that holds the knowledge collection as store 1 and the
    reflection collection as store 2. *)
Definition reachable : Scripted.Script := {|
  Scripted.connect_outcome := Returned true;
  Scripted.disconnect_outcome := Returned tt;
  Scripted.stores := fun name =>
    match name with
    | knowledge => Some 1%nat
    | reflection => Some 2%nat
    | workspace => None
    end
|}.

(** The in-memory configuration of the collection "docs". *)
Definition docs_config : VectorStoreConfig :=
  in_memory_config (Some "docs") (num 1536) (num 10000) None.

(** A service key: the service type followed by the text properties. *)
Definition sample_createServiceKey (service : string) (props : list (string * jsval))
    : string :=
  fold_left
    (fun key prop =>
       match prop.2 with
       | JString s => key +:+ ":" +:+ s
       | _ => key
       end)
    props service.

(** Three calls in the same environment and with the same arguments. *)
Definition three_calls : list (Env * jsval) :=
  [ (env_with_reflection, JUndefined);
    (env_with_reflection, JUndefined);
    (env_with_reflection, JUndefined) ].

(** ** Predicates used in the statements *)

(** The requested backend [t] lacks what it needs to be reached: no URL
    and no host for qdrant, milvus and chroma, no API key for pinecone. *)
Definition lacks_connection (t : string) (host url apiKey : option string) : Prop :=
  ((t = "qdrant" \/ t = "milvus" \/ t = "chroma")
   /\ str_truthy url = false /\ str_truthy host = false)
  \/ (t = "pinecone" /\ str_truthy apiKey = false).

(** The dimension override of an agent configuration:
    [agentConfig.embedding.dimensions]. *)
Definition dimensions_override (agentConfig : jsval) : jsval :=
  get (get agentConfig "embedding") "dimensions".

(** The override is a number that is not positive, or not a number. *)
Definition not_a_positive_number (d : jsval) : Prop :=
  forall n, d = JNumber n -> number_gt0 n = false.

(** A numeric variable is present when it is defined and not NaN. *)
Definition number_present (v : option number) : bool :=
  match v with
  | Some NaN => false
  | Some _ => true
  | None => false
  end.

(** [result] is the workspace-prefixed variable when that one is present,
    and the non-prefixed variable otherwise. *)
Definition prefixed_first {A : Type} (present : option A -> bool)
    (prefixed default result : option A) : Prop :=
  (present prefixed = true -> result = prefixed)
  /\ (present prefixed = false -> result = default).

(** [result] is the workspace-prefixed number when present, otherwise the
    non-prefixed number when present, otherwise the hard default. *)
Definition prefixed_first_number (prefixed default : option number) (hard result : number)
    : Prop :=
  (number_present prefixed = true -> Some result = prefixed)
  /\ (number_present prefixed = false -> number_present default = true ->
      Some result = default)
  /\ (number_present prefixed = false -> number_present default = false ->
      result = hard).

(** The port, where the workspace-prefixed variable is a number: that
    number unless it is NaN, and for NaN the non-prefixed variable when
    present.  Nothing is said for an undefined workspace-prefixed port. *)
Definition port_resolved (prefixed default result : option number) : Prop :=
  (number_present prefixed = true -> result = prefixed)
  /\ (prefixed = Some NaN -> number_present default = true -> result = default)
  /\ (prefixed = Some NaN -> number_present default = false -> result = None).

(** The metric [result] is what the distance value [envDistance] stands
    for, letter case aside; cosine when it stands for nothing or is absent. *)
Definition normalized_distance (envDistance : option string) (result : ChromaDistance)
    : Prop :=
  match envDistance with
  | Some d =>
      let lowered := toLowerCase d in
      (lowered = "cosine" -> result = cosine)
      /\ (lowered = "euclidean" \/ lowered = "l2" -> result = l2)
      /\ (lowered = "dot" \/ lowered = "ip" -> result = ip)
      /\ (lowered <> "cosine" -> lowered <> "euclidean" -> lowered <> "l2" ->
          lowered <> "dot" -> lowered <> "ip" -> result = cosine)
  | None => result = cosine
  end.

(** The configuration carries what its backend needs to be reached: a URL
    or a host for qdrant, milvus and chroma, an API key for pinecone. *)
Definition has_connection_info (config : VectorStoreConfig) : bool :=
  match config with
  | in_memory _ => true
  | qdrant c => str_truthy (Qdrant.url c) || str_truthy (Qdrant.host c)
  | milvus c => str_truthy (Milvus.url c) || str_truthy (Milvus.host c)
  | chroma c => str_truthy (Chroma.url c) || str_truthy (Chroma.host c)
  | pinecone c => str_truthy (Pinecone.apiKey c)
  end.

(** One of the four backend names the resolvers test for. *)
Definition remote_type (t : string) : Prop :=
  t = "qdrant" \/ t = "milvus" \/ t = "chroma" \/ t = "pinecone".

(** The requested backend [t] has what it needs to be reached. *)
Definition can_be_reached (t : string) (host url apiKey : option string) : Prop :=
  ((t = "qdrant" \/ t = "milvus" \/ t = "chroma")
   /\ (str_truthy url = true \/ str_truthy host = true))
  \/ (t = "pinecone" /\ str_truthy apiKey = true).

(** The configuration with its dimension replaced. *)
Definition with_dimension (d : number) (config : VectorStoreConfig) : VectorStoreConfig :=
  match config with
  | in_memory c =>
      in_memory {|
        InMemory.collectionName := InMemory.collectionName c;
        InMemory.dimension := d;
        InMemory.maxVectors := InMemory.maxVectors c;
        InMemory._fallbackFrom := InMemory._fallbackFrom c
      |}
  | qdrant c =>
      qdrant {|
        Qdrant.collectionName := Qdrant.collectionName c;
        Qdrant.dimension := d;
        Qdrant.url := Qdrant.url c;
        Qdrant.host := Qdrant.host c;
        Qdrant.port := Qdrant.port c;
        Qdrant.apiKey := Qdrant.apiKey c;
        Qdrant.distance := Qdrant.distance c;
        Qdrant.onDisk := Qdrant.onDisk c
      |}
  | milvus c =>
      milvus {|
        Milvus.collectionName := Milvus.collectionName c;
        Milvus.dimension := d;
        Milvus.url := Milvus.url c;
        Milvus.host := Milvus.host c;
        Milvus.port := Milvus.port c;
        Milvus.username := Milvus.username c;
        Milvus.password := Milvus.password c;
        Milvus.token := Milvus.token c
      |}
  | chroma c =>
      chroma {|
        Chroma.collectionName := Chroma.collectionName c;
        Chroma.dimension := d;
        Chroma.url := Chroma.url c;
        Chroma.host := Chroma.host c;
        Chroma.port := Chroma.port c;
        Chroma.distance := Chroma.distance c
      |}
  | pinecone c =>
      pinecone {|
        Pinecone.collectionName := Pinecone.collectionName c;
        Pinecone.dimension := d;
        Pinecone.apiKey := Pinecone.apiKey c;
        Pinecone.indexName := Pinecone.indexName c;
        Pinecone.namespace := Pinecone.namespace c;
        Pinecone.metric := Pinecone.metric c
      |}
  end.

(** The port of a configuration that has one. *)
Definition port_of (config : VectorStoreConfig) : option number :=
  match config with
  | qdrant c => Qdrant.port c
  | milvus c => Milvus.port c
  | chroma c => Chroma.port c
  | _ => None
  end.

(** Every character of the string is white space. *)
Fixpoint all_spaces (s : string) : bool :=
  match s with
  | EmptyString => true
  | String c rest => is_space c && all_spaces rest
  end.

(** The upper-case spelling is not one of the backend names. *)
Definition env_upper_case_type : Env :=
  env_of [ text "VECTOR_STORE_TYPE" "QDRANT";
           text "VECTOR_STORE_COLLECTION" "docs";
           text "VECTOR_STORE_HOST" "localhost" ].

(** A store manager whose backend cannot be reached. *)
Definition store_unreachable : ScriptedStore.Script := {|
  ScriptedStore.connect_outcome := Thrown "connection refused";
  ScriptedStore.getInfo_outcome := Returned "in-memory";
  ScriptedStore.disconnect_outcome := Thrown "not connected"
|}.

(** A store manager that connects to store 1. *)
Definition store_reachable : ScriptedStore.Script := {|
  ScriptedStore.connect_outcome := Returned 1%nat;
  ScriptedStore.getInfo_outcome := Returned "in-memory";
  ScriptedStore.disconnect_outcome := Returned tt
|}.

(** A store manager that connects to store 1 and whose [getInfo] throws. *)
Definition store_without_info : ScriptedStore.Script := {|
  ScriptedStore.connect_outcome := Returned 1%nat;
  ScriptedStore.getInfo_outcome := Thrown "no backend";
  ScriptedStore.disconnect_outcome := Returned tt
|}.

(** Pinecone with a collection name that holds a space. *)
Definition env_pinecone_spaced : Env :=
  env_of [ text "VECTOR_STORE_TYPE" "pinecone";
           text "VECTOR_STORE_API_KEY" "secret";
           text "VECTOR_STORE_COLLECTION" "my docs" ].

(** A manager whose [connect] resolves to [false]. *)
Definition connects_falsy : Scripted.Script := {|
  Scripted.connect_outcome := Returned false;
  Scripted.disconnect_outcome := Returned tt;
  Scripted.stores := fun _ => None
|}.

(** A manager that connects but holds no store. *)
Definition without_knowledge : Scripted.Script := {|
  Scripted.connect_outcome := Returned true;
  Scripted.disconnect_outcome := Thrown "not connected";
  Scripted.stores := fun _ => None
|}.


(** The env object shows the host and the URL of [process.env]. *)
Definition shows_host_and_url (env : Env) (process_env : gmap string string) : Prop :=
  VECTOR_STORE_HOST env = process_env !! "VECTOR_STORE_HOST"
  /\ VECTOR_STORE_URL env = process_env !! "VECTOR_STORE_URL".


(** ** Proof steps *)

(** Case analysis on the tests a resolver makes. *)
Ltac resolver_cases :=
  unfold getVectorStoreConfigFromEnv, getWorkspaceVectorStoreConfigFromEnv,
    in_memory_config;
  repeat case_match.

(** * Properties *)

(** ** Fallback to in-memory storage *)

Lemma default_fallback env agentConfig t :
  VECTOR_STORE_TYPE env = Some t ->
  lacks_connection t (VECTOR_STORE_HOST env) (VECTOR_STORE_URL env)
    (VECTOR_STORE_API_KEY env) ->
  getVectorStoreConfigFromEnv env agentConfig
  = in_memory_config (VECTOR_STORE_COLLECTION env)
      (override_dimension agentConfig (number_or (VECTOR_STORE_DIMENSION env) (num 1536)))
      (number_or (VECTOR_STORE_MAX_VECTORS env) (num 10000))
      (Some t).
Proof.
  intros Ht [[Hremote [Hurl Hhost]] | [-> Hkey]]; unfold getVectorStoreConfigFromEnv;
    rewrite Ht.
  - destruct Hremote as [-> | [-> | ->]]; cbn [str_is]; cbn -[in_memory_config];
      rewrite Hurl, Hhost; reflexivity.
  - cbn [str_is]; cbn -[in_memory_config]. rewrite Hkey. reflexivity.
Qed.

Lemma workspace_fallback env agentConfig t :
  str_or (WORKSPACE_VECTOR_STORE_TYPE env) (VECTOR_STORE_TYPE env) = Some t ->
  lacks_connection t
    (str_or (WORKSPACE_VECTOR_STORE_HOST env) (VECTOR_STORE_HOST env))
    (str_or (WORKSPACE_VECTOR_STORE_URL env) (VECTOR_STORE_URL env))
    (VECTOR_STORE_API_KEY env) ->
  getWorkspaceVectorStoreConfigFromEnv env agentConfig
  = in_memory_config
      (Some (str_or_lit (WORKSPACE_VECTOR_STORE_COLLECTION env) "workspace_memory"))
      (override_dimension agentConfig
         (number_or (WORKSPACE_VECTOR_STORE_DIMENSION env)
            (number_or (VECTOR_STORE_DIMENSION env) (num 1536))))
      (number_or (WORKSPACE_VECTOR_STORE_MAX_VECTORS env)
         (number_or (VECTOR_STORE_MAX_VECTORS env) (num 10000)))
      (Some (t +:+ "-workspace")).
Proof.
  intros Ht [[Hremote [Hurl Hhost]] | [-> Hkey]];
    unfold getWorkspaceVectorStoreConfigFromEnv; rewrite Ht.
  - destruct Hremote as [-> | [-> | ->]]; cbn [str_is]; cbn -[in_memory_config str_or];
      rewrite Hurl, Hhost; reflexivity.
  - cbn [str_is]; cbn -[in_memory_config str_or]. rewrite Hkey. reflexivity.
Qed.

(** C1 (amended).  When the requested backend is qdrant, milvus or chroma
    with neither URL nor host, or pinecone with no API key, both resolvers
    return an in-memory configuration.  [getVectorStoreConfigFromEnv] tags
    it with the requested type; [getWorkspaceVectorStoreConfigFromEnv],
    whose requested type and host and URL are the workspace variables with
    the default ones as fallback, tags it with the requested type followed
    by "-workspace". *)
Theorem fallback_tag env agentConfig t :
  (VECTOR_STORE_TYPE env = Some t ->
   lacks_connection t (VECTOR_STORE_HOST env) (VECTOR_STORE_URL env)
     (VECTOR_STORE_API_KEY env) ->
   type (getVectorStoreConfigFromEnv env agentConfig) = "in-memory"
   /\ fallbackFrom (getVectorStoreConfigFromEnv env agentConfig) = Some t)
  /\
  (str_or (WORKSPACE_VECTOR_STORE_TYPE env) (VECTOR_STORE_TYPE env) = Some t ->
   lacks_connection t
     (str_or (WORKSPACE_VECTOR_STORE_HOST env) (VECTOR_STORE_HOST env))
     (str_or (WORKSPACE_VECTOR_STORE_URL env) (VECTOR_STORE_URL env))
     (VECTOR_STORE_API_KEY env) ->
   type (getWorkspaceVectorStoreConfigFromEnv env agentConfig) = "in-memory"
   /\ fallbackFrom (getWorkspaceVectorStoreConfigFromEnv env agentConfig)
      = Some (t +:+ "-workspace")).
Proof.
  split; intros Ht Hlacks.
  - rewrite (default_fallback env agentConfig t Ht Hlacks). split; reflexivity.
  - rewrite (workspace_fallback env agentConfig t Ht Hlacks). split; reflexivity.
Qed.

Lemma fallback_tag_witness :
  fallbackFrom (getVectorStoreConfigFromEnv env_qdrant_bare JUndefined) = Some "qdrant"
  /\ fallbackFrom (getWorkspaceVectorStoreConfigFromEnv env_qdrant_bare JUndefined)
     = Some "qdrant-workspace".
Proof.
  destruct (fallback_tag env_qdrant_bare JUndefined "qdrant") as [Hdefault Hworkspace].
  split.
  - apply Hdefault; [reflexivity |].
    left. split; [left; reflexivity | split; reflexivity].
  - apply Hworkspace; [reflexivity |].
    left. split; [left; reflexivity | split; reflexivity].
Defined.

(** C1 as stated fails at the workspace entry point: with qdrant requested
    and neither host nor URL, the tag is "qdrant-workspace", not the
    requested type "qdrant". *)
Lemma workspace_fallback_tag_not_requested_type :
  str_or (WORKSPACE_VECTOR_STORE_TYPE env_qdrant_bare) (VECTOR_STORE_TYPE env_qdrant_bare)
  = Some "qdrant"
  /\ str_or (WORKSPACE_VECTOR_STORE_HOST env_qdrant_bare) (VECTOR_STORE_HOST env_qdrant_bare)
     = None
  /\ str_or (WORKSPACE_VECTOR_STORE_URL env_qdrant_bare) (VECTOR_STORE_URL env_qdrant_bare)
     = None
  /\ type (getWorkspaceVectorStoreConfigFromEnv env_qdrant_bare JUndefined) = "in-memory"
  /\ fallbackFrom (getWorkspaceVectorStoreConfigFromEnv env_qdrant_bare JUndefined)
     = Some "qdrant-workspace"
  /\ fallbackFrom (getWorkspaceVectorStoreConfigFromEnv env_qdrant_bare JUndefined)
     <> Some "qdrant".
Proof. repeat split; try reflexivity. vm_compute. discriminate. Qed.

(** ** The configurations returned *)

Lemma override_dimension_absent agentConfig dimension :
  get (get agentConfig "embedding") "dimensions" = JUndefined ->
  override_dimension agentConfig dimension = dimension.
Proof.
  intros H. unfold override_dimension. rewrite H. cbn [truthy].
  rewrite !andb_false_r. reflexivity.
Qed.

(** C8.  With qdrant requested, neither host nor URL, no dimension and no
    maxVectors in the environment and no dimension in the agent
    configuration, the configuration returned is exactly the in-memory one
    with the configured collection name, dimension 1536, 10000 vectors and
    the tag "qdrant". *)
Theorem qdrant_without_host_falls_back env agentConfig :
  VECTOR_STORE_TYPE env = Some "qdrant" ->
  str_truthy (VECTOR_STORE_HOST env) = false ->
  str_truthy (VECTOR_STORE_URL env) = false ->
  VECTOR_STORE_DIMENSION env = None ->
  VECTOR_STORE_MAX_VECTORS env = None ->
  get (get agentConfig "embedding") "dimensions" = JUndefined ->
  getVectorStoreConfigFromEnv env agentConfig
  = in_memory {|
      InMemory.collectionName := VECTOR_STORE_COLLECTION env;
      InMemory.dimension := num 1536;
      InMemory.maxVectors := num 10000;
      InMemory._fallbackFrom := Some "qdrant"
    |}.
Proof.
  intros Ht Hhost Hurl Hdim Hmax Hagent.
  rewrite (default_fallback env agentConfig "qdrant" Ht).
  - rewrite Hdim, Hmax, (override_dimension_absent _ _ Hagent). reflexivity.
  - left. split; [left; reflexivity | split; assumption].
Qed.

Lemma qdrant_without_host_falls_back_witness :
  getVectorStoreConfigFromEnv env_qdrant_bare JUndefined
  = in_memory {|
      InMemory.collectionName := Some "docs";
      InMemory.dimension := num 1536;
      InMemory.maxVectors := num 10000;
      InMemory._fallbackFrom := Some "qdrant"
    |}.
Proof.
  apply (qdrant_without_host_falls_back env_qdrant_bare JUndefined); reflexivity.
Defined.

(** C9.  Whenever [getVectorStoreConfigFromEnv] returns a pinecone
    configuration, its [indexName] equals its [collectionName], both being
    [VECTOR_STORE_COLLECTION]. *)
Theorem pinecone_indexName_is_collectionName env agentConfig c :
  getVectorStoreConfigFromEnv env agentConfig = pinecone c ->
  Pinecone.indexName c = Pinecone.collectionName c
  /\ Pinecone.collectionName c = VECTOR_STORE_COLLECTION env.
Proof.
  unfold getVectorStoreConfigFromEnv, in_memory_config.
  intros H. repeat case_match; simplify_eq. split; reflexivity.
Qed.

Lemma pinecone_indexName_is_collectionName_witness :
  type (getVectorStoreConfigFromEnv env_pinecone JUndefined) = "pinecone"
  /\ exists c, getVectorStoreConfigFromEnv env_pinecone JUndefined = pinecone c
               /\ Pinecone.indexName c = Some "docs"
               /\ Pinecone.collectionName c = Some "docs".
Proof.
  split; [reflexivity |].
  eexists. split; [reflexivity |].
  destruct (pinecone_indexName_is_collectionName env_pinecone JUndefined _ eq_refl)
    as [Hindex Hname].
  rewrite Hindex, Hname. split; reflexivity.
Defined.

Lemma length_append (s suffix : string) :
  String.length (s +:+ suffix) = (String.length s + String.length suffix)%nat.
Proof. induction s as [| c s IH]; simpl; [reflexivity | f_equal; exact IH]. Qed.

Lemma append_suffix_neq (s suffix : string) :
  suffix <> "" -> s +:+ suffix <> s.
Proof.
  intros Hsuffix Heq.
  assert (Hlen : String.length (s +:+ suffix) = String.length s)
    by (rewrite Heq; reflexivity).
  rewrite length_append in Hlen.
  destruct suffix as [| c rest]; [congruence |]. cbn in Hlen. lia.
Qed.

(** The namespace of the workspace store (line 723). *)
Lemma workspace_pinecone_namespace env agentConfig c :
  getWorkspaceVectorStoreConfigFromEnv env agentConfig = pinecone c ->
  Pinecone.namespace c
  = match PINECONE_NAMESPACE env with
    | Some ns => if String.eqb ns "" then Some "workspace" else Some (ns +:+ "-workspace")
    | None => Some "workspace"
    end.
Proof.
  unfold getWorkspaceVectorStoreConfigFromEnv, in_memory_config.
  intros H. repeat case_match; simplify_eq; reflexivity.
Qed.

Lemma default_pinecone_namespace env agentConfig c :
  getVectorStoreConfigFromEnv env agentConfig = pinecone c ->
  Pinecone.namespace c = PINECONE_NAMESPACE env.
Proof.
  unfold getVectorStoreConfigFromEnv, in_memory_config.
  intros H. repeat case_match; simplify_eq; reflexivity.
Qed.

(** C10.  Whenever [getWorkspaceVectorStoreConfigFromEnv] returns a
    pinecone configuration, its namespace is [PINECONE_NAMESPACE] followed
    by "-workspace" when that variable is set and not empty, and
    "workspace" otherwise; it differs from [PINECONE_NAMESPACE], hence from
    the namespace of any pinecone configuration that
    [getVectorStoreConfigFromEnv] returns for the same environment. *)
Theorem workspace_namespace_is_separate env agentConfig c :
  getWorkspaceVectorStoreConfigFromEnv env agentConfig = pinecone c ->
  (forall ns, PINECONE_NAMESPACE env = Some ns -> ns <> "" ->
     Pinecone.namespace c = Some (ns +:+ "-workspace"))
  /\ (str_truthy (PINECONE_NAMESPACE env) = false ->
      Pinecone.namespace c = Some "workspace")
  /\ Pinecone.namespace c <> PINECONE_NAMESPACE env
  /\ (forall agentConfig' d,
        getVectorStoreConfigFromEnv env agentConfig' = pinecone d ->
        Pinecone.namespace c <> Pinecone.namespace d).
Proof.
  intros H. pose proof (workspace_pinecone_namespace _ _ _ H) as Hns.
  assert (Hneq : Pinecone.namespace c <> PINECONE_NAMESPACE env).
  { rewrite Hns. destruct (PINECONE_NAMESPACE env) as [ns |]; [| discriminate].
    destruct (String.eqb_spec ns "") as [Hempty | Hne];
      [rewrite Hempty; discriminate |].
    intros [= Heq]. exact (append_suffix_neq ns "-workspace" ltac:(discriminate) Heq). }
  split; [| split; [| split]].
  - intros ns Hset Hne. rewrite Hns, Hset.
    destruct (String.eqb_spec ns ""); [contradiction | reflexivity].
  - intros Hfalsy. rewrite Hns. destruct (PINECONE_NAMESPACE env) as [ns |]; [| reflexivity].
    cbn in Hfalsy. destruct (String.eqb ns ""); [reflexivity | discriminate].
  - exact Hneq.
  - intros agentConfig' d Hd. rewrite (default_pinecone_namespace _ _ _ Hd). exact Hneq.
Qed.

Lemma workspace_namespace_is_separate_witness :
  exists c, getWorkspaceVectorStoreConfigFromEnv env_pinecone JUndefined = pinecone c
            /\ Pinecone.namespace c = Some "team-workspace"
            /\ Pinecone.namespace c <> Some "team".
Proof.
  eexists. split; [reflexivity |].
  destruct (workspace_namespace_is_separate env_pinecone JUndefined _ eq_refl)
    as (Hset & _ & Hneq & _).
  split; [exact (Hset "team" eq_refl ltac:(discriminate)) | exact Hneq].
Defined.

(** ** The dimension override *)

Lemma number_gt0_truthy n : number_gt0 n = true -> number_truthy n = true.
Proof.
  destruct n as [| negative | q]; cbn; [discriminate | reflexivity |].
  intros Hgt. apply negb_true_iff in Hgt. apply negb_true_iff.
  destruct (Qeq_bool q 0) eqn:Heq; [| reflexivity].
  apply Qeq_bool_iff in Heq.
  assert (Hle : Qle_bool q 0 = true) by (apply Qle_bool_iff; rewrite Heq; apply Qle_refl).
  congruence.
Qed.

Lemma override_dimension_positive agentConfig dimension n :
  dimensions_override agentConfig = JNumber n ->
  number_gt0 n = true ->
  override_dimension agentConfig dimension = n.
Proof.
  unfold dimensions_override, override_dimension. intros Hd Hgt.
  destruct (get agentConfig "embedding") as [| | | | | props] eqn:Hembedding;
    try discriminate Hd.
  rewrite Hd. cbn. rewrite (number_gt0_truthy n Hgt), Hgt. reflexivity.
Qed.

Lemma override_dimension_ignored agentConfig dimension :
  not_a_positive_number (dimensions_override agentConfig) ->
  override_dimension agentConfig dimension = dimension.
Proof.
  unfold dimensions_override, override_dimension, not_a_positive_number. intros Hd.
  destruct (_ && _); [| reflexivity].
  destruct (get (get agentConfig "embedding") "dimensions") as [| | | n | |];
    try reflexivity.
  rewrite (Hd n eq_refl). reflexivity.
Qed.

Lemma default_dimension env agentConfig :
  dimension (getVectorStoreConfigFromEnv env agentConfig)
  = override_dimension agentConfig (number_or (VECTOR_STORE_DIMENSION env) (num 1536)).
Proof.
  unfold getVectorStoreConfigFromEnv, in_memory_config.
  repeat case_match; reflexivity.
Qed.

Lemma workspace_dimension env agentConfig :
  dimension (getWorkspaceVectorStoreConfigFromEnv env agentConfig)
  = override_dimension agentConfig
      (number_or (WORKSPACE_VECTOR_STORE_DIMENSION env)
         (number_or (VECTOR_STORE_DIMENSION env) (num 1536))).
Proof.
  unfold getWorkspaceVectorStoreConfigFromEnv, in_memory_config.
  repeat case_match; reflexivity.
Qed.

(** C4.  When [agentConfig.embedding.dimensions] is a positive number, the
    configuration returned by either resolver has that number as its
    dimension, whatever the environment holds; when it is not a number or
    not positive, the dimension is the one resolved from the environment,
    the same as without an agent configuration. *)
Theorem dimension_override env agentConfig :
  (forall n,
     dimensions_override agentConfig = JNumber n -> number_gt0 n = true ->
     dimension (getVectorStoreConfigFromEnv env agentConfig) = n
     /\ dimension (getWorkspaceVectorStoreConfigFromEnv env agentConfig) = n)
  /\
  (not_a_positive_number (dimensions_override agentConfig) ->
   dimension (getVectorStoreConfigFromEnv env agentConfig)
   = dimension (getVectorStoreConfigFromEnv env JUndefined)
   /\ dimension (getVectorStoreConfigFromEnv env agentConfig)
      = number_or (VECTOR_STORE_DIMENSION env) (num 1536)
   /\ dimension (getWorkspaceVectorStoreConfigFromEnv env agentConfig)
      = dimension (getWorkspaceVectorStoreConfigFromEnv env JUndefined)
   /\ dimension (getWorkspaceVectorStoreConfigFromEnv env agentConfig)
      = number_or (WORKSPACE_VECTOR_STORE_DIMENSION env)
          (number_or (VECTOR_STORE_DIMENSION env) (num 1536))).
Proof.
  split.
  - intros n Hd Hgt. rewrite default_dimension, workspace_dimension.
    rewrite !(override_dimension_positive agentConfig _ n Hd Hgt). split; reflexivity.
  - intros Hd. rewrite !default_dimension, !workspace_dimension.
    rewrite !(override_dimension_ignored agentConfig _ Hd).
    rewrite !(override_dimension_absent JUndefined _ eq_refl).
    repeat split; reflexivity.
Qed.

Lemma dimension_override_witness :
  (dimension (getVectorStoreConfigFromEnv env_qdrant_local
                (agentConfig_with_dimensions (JNumber (num 768)))) = num 768
   /\ dimension (getWorkspaceVectorStoreConfigFromEnv env_qdrant_local
                   (agentConfig_with_dimensions (JNumber (num 768)))) = num 768)
  /\ dimension (getVectorStoreConfigFromEnv env_qdrant_local
                  (agentConfig_with_dimensions (JString "768"))) = num 1024
  /\ dimension (getVectorStoreConfigFromEnv env_qdrant_local
                  (agentConfig_with_dimensions (JNumber (num (-5))))) = num 1024.
Proof.
  split; [| split].
  - apply (proj1 (dimension_override env_qdrant_local
                    (agentConfig_with_dimensions (JNumber (num 768))))); reflexivity.
  - apply (proj2 (dimension_override env_qdrant_local
                    (agentConfig_with_dimensions (JString "768")))).
    intros n Hn. discriminate Hn.
  - apply (proj2 (dimension_override env_qdrant_local
                    (agentConfig_with_dimensions (JNumber (num (-5)))))).
    intros n Hn. injection Hn as <-. reflexivity.
Defined.

(** ** Distance metrics *)

Lemma chroma_distance_normalized envDistance :
  normalized_distance envDistance (chroma_distance envDistance).
Proof.
  unfold normalized_distance, chroma_distance.
  destruct envDistance as [d |]; [| reflexivity].
  destruct (String.eqb_spec d "") as [-> | Hd]; cbn [negb].
  - cbn. repeat split; try discriminate. intros [H | H]; discriminate H.
    intros [H | H]; discriminate H.
  - set (lowered := toLowerCase d).
    destruct (String.eqb_spec lowered "cosine") as [-> | Hcosine].
    { repeat split; try discriminate; try congruence; intros [H | H]; discriminate H. }
    destruct (String.eqb_spec lowered "euclidean") as [-> | Heuclidean]; cbn [orb].
    { repeat split; try discriminate; try congruence; intros [H | H]; discriminate H. }
    destruct (String.eqb_spec lowered "l2") as [-> | Hl2].
    { repeat split; try discriminate; try congruence; intros [H | H]; discriminate H. }
    destruct (String.eqb_spec lowered "dot") as [-> | Hdot]; cbn [orb].
    { repeat split; try discriminate; try congruence; intros [H | H]; discriminate H. }
    destruct (String.eqb_spec lowered "ip") as [-> | Hip].
    { repeat split; try discriminate; try congruence; intros [H | H]; discriminate H. }
    repeat split; try congruence; intros [H | H]; congruence.
Qed.

Example toLowerCase_mixed : toLowerCase "EuClIdEaN" = "euclidean".
Proof. reflexivity. Qed.

Lemma chroma_distance_range envDistance :
  chroma_distance envDistance = cosine
  \/ chroma_distance envDistance = l2
  \/ chroma_distance envDistance = ip.
Proof.
  unfold chroma_distance. repeat case_match; auto.
Qed.

(** C6 (amended).  A chroma configuration, from either resolver, carries
    the environment's distance value normalized without regard to letter
    case: cosine for "cosine", l2 for "euclidean" and "l2", ip for "dot"
    and "ip", and cosine for any other or absent value.  A qdrant
    configuration carries the environment's distance value as it is, and a
    pinecone configuration carries [PINECONE_METRIC], or else
    [VECTOR_STORE_DISTANCE], as it is. *)
Theorem distance_resolution env agentConfig :
  (forall c, getVectorStoreConfigFromEnv env agentConfig = chroma c ->
     normalized_distance (VECTOR_STORE_DISTANCE env) (Chroma.distance c)
     /\ (Chroma.distance c = cosine \/ Chroma.distance c = l2 \/ Chroma.distance c = ip))
  /\ (forall c, getWorkspaceVectorStoreConfigFromEnv env agentConfig = chroma c ->
        normalized_distance
          (str_or (WORKSPACE_VECTOR_STORE_DISTANCE env) (VECTOR_STORE_DISTANCE env))
          (Chroma.distance c)
        /\ (Chroma.distance c = cosine \/ Chroma.distance c = l2
            \/ Chroma.distance c = ip))
  /\ (forall c, getVectorStoreConfigFromEnv env agentConfig = qdrant c ->
        Qdrant.distance c = VECTOR_STORE_DISTANCE env)
  /\ (forall c, getWorkspaceVectorStoreConfigFromEnv env agentConfig = qdrant c ->
        Qdrant.distance c
        = str_or (WORKSPACE_VECTOR_STORE_DISTANCE env) (VECTOR_STORE_DISTANCE env))
  /\ (forall c, getVectorStoreConfigFromEnv env agentConfig = pinecone c ->
        Pinecone.metric c = str_or (PINECONE_METRIC env) (VECTOR_STORE_DISTANCE env))
  /\ (forall c, getWorkspaceVectorStoreConfigFromEnv env agentConfig = pinecone c ->
        Pinecone.metric c = str_or (PINECONE_METRIC env) (VECTOR_STORE_DISTANCE env)).
Proof.
  split; [| split; [| split; [| split; [| split]]]]; intros c H.
  - assert (Hc : Chroma.distance c = chroma_distance (VECTOR_STORE_DISTANCE env)).
    { revert H. unfold getVectorStoreConfigFromEnv, in_memory_config.
      intros H. repeat case_match; simplify_eq; reflexivity. }
    rewrite Hc. split; [apply chroma_distance_normalized | apply chroma_distance_range].
  - assert (Hc : Chroma.distance c
                 = chroma_distance (str_or (WORKSPACE_VECTOR_STORE_DISTANCE env)
                                      (VECTOR_STORE_DISTANCE env))).
    { revert H. unfold getWorkspaceVectorStoreConfigFromEnv, in_memory_config.
      intros H. repeat case_match; simplify_eq; reflexivity. }
    rewrite Hc. split; [apply chroma_distance_normalized | apply chroma_distance_range].
  - revert H. unfold getVectorStoreConfigFromEnv, in_memory_config.
    intros H. repeat case_match; simplify_eq; reflexivity.
  - revert H. unfold getWorkspaceVectorStoreConfigFromEnv, in_memory_config.
    intros H. repeat case_match; simplify_eq; reflexivity.
  - revert H. unfold getVectorStoreConfigFromEnv, in_memory_config.
    intros H. repeat case_match; simplify_eq; reflexivity.
  - revert H. unfold getWorkspaceVectorStoreConfigFromEnv, in_memory_config.
    intros H. repeat case_match; simplify_eq; reflexivity.
Qed.

Lemma distance_resolution_witness :
  exists c, getVectorStoreConfigFromEnv env_chroma_local JUndefined = chroma c
            /\ VECTOR_STORE_DISTANCE env_chroma_local = Some "Euclidean"
            /\ Chroma.distance c = l2.
Proof.
  eexists. split; [reflexivity |]. split; [reflexivity |].
  destruct (distance_resolution env_chroma_local JUndefined) as [Hchroma _].
  destruct (Hchroma _ eq_refl) as [(_ & Hl2 & _) _].
  apply Hl2. left. reflexivity.
Defined.

(** C6 as stated fails for a qdrant configuration: the environment's
    distance "Manhattan" is carried as it is, neither normalized nor
    replaced by cosine. *)
Lemma qdrant_distance_not_normalized :
  exists c, getVectorStoreConfigFromEnv env_qdrant_local JUndefined = qdrant c
            /\ VECTOR_STORE_DISTANCE env_qdrant_local = Some "Manhattan"
            /\ Qdrant.distance c = Some "Manhattan"
            /\ Qdrant.distance c <> Some "cosine"
            /\ Qdrant.distance c <> Some "l2"
            /\ Qdrant.distance c <> Some "euclidean"
            /\ Qdrant.distance c <> Some "ip"
            /\ Qdrant.distance c <> Some "dot".
Proof.
  eexists. split; [reflexivity |]. cbn. repeat split; discriminate.
Qed.

(** ** The workspace variables and their fallbacks *)

Lemma str_is_true a b : str_is a b = true -> a = Some b.
Proof.
  destruct a as [x |]; cbn; [| discriminate].
  intros H. apply String.eqb_eq in H. congruence.
Qed.

Lemma str_or_prefixed_first a b : prefixed_first str_truthy a b (str_or a b).
Proof. unfold prefixed_first, str_or. split; intros ->; reflexivity. Qed.

Lemma str_or_lit_set a b : str_truthy a = true -> Some (str_or_lit a b) = a.
Proof.
  destruct a as [x |]; cbn; [| discriminate].
  destruct (String.eqb x ""); [discriminate | reflexivity].
Qed.

Lemma str_or_lit_unset a b : str_truthy a = false -> str_or_lit a b = b.
Proof.
  destruct a as [x |]; cbn; [| reflexivity].
  destruct (String.eqb x ""); [reflexivity | discriminate].
Qed.

Lemma number_or_present v fallback : number_present v = true -> Some (number_or v fallback) = v.
Proof. destruct v as [[| negative | q] |]; cbn; try discriminate; reflexivity. Qed.

Lemma number_or_absent v fallback : number_present v = false -> number_or v fallback = fallback.
Proof. destruct v as [[| negative | q] |]; cbn; try discriminate; reflexivity. Qed.

Lemma number_or_prefixed_first prefixed default hard :
  prefixed_first_number prefixed default hard (number_or prefixed (number_or default hard)).
Proof.
  unfold prefixed_first_number. split; [| split].
  - apply number_or_present.
  - intros Hp Hd. rewrite (number_or_absent _ _ Hp). apply number_or_present, Hd.
  - intros Hp Hd. rewrite (number_or_absent _ _ Hp). apply number_or_absent, Hd.
Qed.

Lemma workspace_port_resolved env :
  port_resolved (WORKSPACE_VECTOR_STORE_PORT env) (VECTOR_STORE_PORT env)
    (workspace_port env).
Proof.
  unfold port_resolved, workspace_port. split; [| split].
  - destruct (WORKSPACE_VECTOR_STORE_PORT env) as [[| negative | q] |]; cbn;
      try discriminate; reflexivity.
  - intros -> Hd. cbn.
    destruct (VECTOR_STORE_PORT env) as [[| negative | q] |]; cbn in *;
      try discriminate; reflexivity.
  - intros -> Hd. cbn.
    destruct (VECTOR_STORE_PORT env) as [[| negative | q] |]; cbn in *;
      try discriminate; reflexivity.
Qed.

Lemma workspace_collectionName env agentConfig :
  collectionName (getWorkspaceVectorStoreConfigFromEnv env agentConfig)
  = Some (str_or_lit (WORKSPACE_VECTOR_STORE_COLLECTION env) "workspace_memory").
Proof.
  unfold getWorkspaceVectorStoreConfigFromEnv, in_memory_config.
  repeat case_match; reflexivity.
Qed.

Lemma workspace_type env agentConfig :
  type (getWorkspaceVectorStoreConfigFromEnv env agentConfig) = "in-memory"
  \/ str_or (WORKSPACE_VECTOR_STORE_TYPE env) (VECTOR_STORE_TYPE env)
     = Some (type (getWorkspaceVectorStoreConfigFromEnv env agentConfig)).
Proof.
  unfold getWorkspaceVectorStoreConfigFromEnv, in_memory_config.
  repeat case_match; cbn [type]; auto using str_is_true.
Qed.

Lemma workspace_maxVectors env agentConfig c :
  getWorkspaceVectorStoreConfigFromEnv env agentConfig = in_memory c ->
  InMemory.maxVectors c
  = number_or (WORKSPACE_VECTOR_STORE_MAX_VECTORS env)
      (number_or (VECTOR_STORE_MAX_VECTORS env) (num 10000)).
Proof.
  unfold getWorkspaceVectorStoreConfigFromEnv, in_memory_config.
  intros H. repeat case_match; simplify_eq; reflexivity.
Qed.

Lemma workspace_qdrant env agentConfig c :
  getWorkspaceVectorStoreConfigFromEnv env agentConfig = qdrant c ->
  Qdrant.host c = str_or (WORKSPACE_VECTOR_STORE_HOST env) (VECTOR_STORE_HOST env)
  /\ Qdrant.url c = str_or (WORKSPACE_VECTOR_STORE_URL env) (VECTOR_STORE_URL env)
  /\ Qdrant.apiKey c
     = str_or (WORKSPACE_VECTOR_STORE_API_KEY env) (VECTOR_STORE_API_KEY env)
  /\ Qdrant.distance c
     = str_or (WORKSPACE_VECTOR_STORE_DISTANCE env) (VECTOR_STORE_DISTANCE env)
  /\ Qdrant.port c = workspace_port env.
Proof.
  unfold getWorkspaceVectorStoreConfigFromEnv, in_memory_config.
  intros H. repeat case_match; simplify_eq; repeat split; reflexivity.
Qed.

Lemma workspace_milvus env agentConfig c :
  getWorkspaceVectorStoreConfigFromEnv env agentConfig = milvus c ->
  Milvus.host c = str_or (WORKSPACE_VECTOR_STORE_HOST env) (VECTOR_STORE_HOST env)
  /\ Milvus.url c = str_or (WORKSPACE_VECTOR_STORE_URL env) (VECTOR_STORE_URL env)
  /\ Milvus.username c
     = str_or (WORKSPACE_VECTOR_STORE_USERNAME env) (VECTOR_STORE_USERNAME env)
  /\ Milvus.password c
     = str_or (WORKSPACE_VECTOR_STORE_PASSWORD env) (VECTOR_STORE_PASSWORD env)
  /\ Milvus.token c
     = str_or (WORKSPACE_VECTOR_STORE_API_KEY env) (VECTOR_STORE_API_KEY env)
  /\ Milvus.port c = workspace_port env.
Proof.
  unfold getWorkspaceVectorStoreConfigFromEnv, in_memory_config.
  intros H. repeat case_match; simplify_eq; repeat split; reflexivity.
Qed.

Lemma workspace_chroma env agentConfig c :
  getWorkspaceVectorStoreConfigFromEnv env agentConfig = chroma c ->
  Chroma.host c = str_or (WORKSPACE_VECTOR_STORE_HOST env) (VECTOR_STORE_HOST env)
  /\ Chroma.url c = str_or (WORKSPACE_VECTOR_STORE_URL env) (VECTOR_STORE_URL env)
  /\ Chroma.distance c
     = chroma_distance
         (str_or (WORKSPACE_VECTOR_STORE_DISTANCE env) (VECTOR_STORE_DISTANCE env))
  /\ Chroma.port c = workspace_port env.
Proof.
  unfold getWorkspaceVectorStoreConfigFromEnv, in_memory_config.
  intros H. repeat case_match; simplify_eq; repeat split; reflexivity.
Qed.

(** C5 (amended).  [getWorkspaceVectorStoreConfigFromEnv] resolves each
    field on its own.  The type, host, URL, API key (qdrant, and the token
    of milvus), distance (qdrant as it is, chroma before normalization),
    user name and password are the WORKSPACE_ variable when it is set and
    not empty, otherwise the VECTOR_STORE_ variable.  The dimension (before
    the agent override) and maxVectors are the WORKSPACE_ number when it is
    defined and not NaN, otherwise the VECTOR_STORE_ number when it is
    defined and not NaN, otherwise 1536 and 10000.  The collection name is
    [WORKSPACE_VECTOR_STORE_COLLECTION] when set and not empty and
    "workspace_memory" otherwise; [VECTOR_STORE_COLLECTION] plays no part.
    The port is [WORKSPACE_VECTOR_STORE_PORT] when that is a number other
    than NaN, and for NaN it is [VECTOR_STORE_PORT] when that is a number
    other than NaN, and undefined otherwise. *)
Theorem workspace_resolution env agentConfig :
  let config := getWorkspaceVectorStoreConfigFromEnv env agentConfig in
  (exists requested,
      prefixed_first str_truthy (WORKSPACE_VECTOR_STORE_TYPE env) (VECTOR_STORE_TYPE env)
        requested
      /\ (type config = "in-memory" \/ requested = Some (type config)))
  /\ (str_truthy (WORKSPACE_VECTOR_STORE_COLLECTION env) = true ->
      collectionName config = WORKSPACE_VECTOR_STORE_COLLECTION env)
  /\ (str_truthy (WORKSPACE_VECTOR_STORE_COLLECTION env) = false ->
      collectionName config = Some "workspace_memory")
  /\ (exists d,
        prefixed_first_number (WORKSPACE_VECTOR_STORE_DIMENSION env)
          (VECTOR_STORE_DIMENSION env) (num 1536) d
        /\ dimension config = override_dimension agentConfig d)
  /\ (forall c, config = in_memory c ->
        prefixed_first_number (WORKSPACE_VECTOR_STORE_MAX_VECTORS env)
          (VECTOR_STORE_MAX_VECTORS env) (num 10000) (InMemory.maxVectors c))
  /\ (forall c, config = qdrant c ->
        prefixed_first str_truthy (WORKSPACE_VECTOR_STORE_HOST env)
          (VECTOR_STORE_HOST env) (Qdrant.host c)
        /\ prefixed_first str_truthy (WORKSPACE_VECTOR_STORE_URL env)
             (VECTOR_STORE_URL env) (Qdrant.url c)
        /\ prefixed_first str_truthy (WORKSPACE_VECTOR_STORE_API_KEY env)
             (VECTOR_STORE_API_KEY env) (Qdrant.apiKey c)
        /\ prefixed_first str_truthy (WORKSPACE_VECTOR_STORE_DISTANCE env)
             (VECTOR_STORE_DISTANCE env) (Qdrant.distance c)
        /\ port_resolved (WORKSPACE_VECTOR_STORE_PORT env) (VECTOR_STORE_PORT env)
             (Qdrant.port c))
  /\ (forall c, config = milvus c ->
        prefixed_first str_truthy (WORKSPACE_VECTOR_STORE_HOST env)
          (VECTOR_STORE_HOST env) (Milvus.host c)
        /\ prefixed_first str_truthy (WORKSPACE_VECTOR_STORE_URL env)
             (VECTOR_STORE_URL env) (Milvus.url c)
        /\ prefixed_first str_truthy (WORKSPACE_VECTOR_STORE_USERNAME env)
             (VECTOR_STORE_USERNAME env) (Milvus.username c)
        /\ prefixed_first str_truthy (WORKSPACE_VECTOR_STORE_PASSWORD env)
             (VECTOR_STORE_PASSWORD env) (Milvus.password c)
        /\ prefixed_first str_truthy (WORKSPACE_VECTOR_STORE_API_KEY env)
             (VECTOR_STORE_API_KEY env) (Milvus.token c)
        /\ port_resolved (WORKSPACE_VECTOR_STORE_PORT env) (VECTOR_STORE_PORT env)
             (Milvus.port c))
  /\ (forall c, config = chroma c ->
        prefixed_first str_truthy (WORKSPACE_VECTOR_STORE_HOST env)
          (VECTOR_STORE_HOST env) (Chroma.host c)
        /\ prefixed_first str_truthy (WORKSPACE_VECTOR_STORE_URL env)
             (VECTOR_STORE_URL env) (Chroma.url c)
        /\ (exists envDistance,
              prefixed_first str_truthy (WORKSPACE_VECTOR_STORE_DISTANCE env)
                (VECTOR_STORE_DISTANCE env) envDistance
              /\ normalized_distance envDistance (Chroma.distance c))
        /\ port_resolved (WORKSPACE_VECTOR_STORE_PORT env) (VECTOR_STORE_PORT env)
             (Chroma.port c)).
Proof.
  intros config. subst config.
  split; [| split; [| split; [| split; [| split; [| split; [| split]]]]]].
  - eexists. split; [apply str_or_prefixed_first | apply workspace_type].
  - intros Hset. rewrite workspace_collectionName. apply str_or_lit_set, Hset.
  - intros Hunset. rewrite workspace_collectionName.
    rewrite (str_or_lit_unset _ _ Hunset). reflexivity.
  - eexists. split; [apply number_or_prefixed_first | apply workspace_dimension].
  - intros c H. rewrite (workspace_maxVectors _ _ _ H). apply number_or_prefixed_first.
  - intros c H. destruct (workspace_qdrant _ _ _ H) as (-> & -> & -> & -> & ->).
    repeat split; try apply str_or_prefixed_first; apply workspace_port_resolved.
  - intros c H. destruct (workspace_milvus _ _ _ H) as (-> & -> & -> & -> & -> & ->).
    repeat split; try apply str_or_prefixed_first; apply workspace_port_resolved.
  - intros c H. destruct (workspace_chroma _ _ _ H) as (-> & -> & -> & ->).
    split; [apply str_or_prefixed_first |].
    split; [apply str_or_prefixed_first |].
    split; [| apply workspace_port_resolved].
    eexists. split; [apply str_or_prefixed_first | apply chroma_distance_normalized].
Qed.

Lemma workspace_resolution_witness :
  exists c, getWorkspaceVectorStoreConfigFromEnv env_workspace_qdrant JUndefined = qdrant c
            /\ Qdrant.host c = Some "workspace.local"
            /\ Qdrant.apiKey c = Some "secret"
            /\ Qdrant.port c = Some (num 6333)
            /\ Qdrant.collectionName c = Some "workspace_memory".
Proof.
  eexists. split; [reflexivity |].
  destruct (workspace_resolution env_workspace_qdrant JUndefined)
    as (_ & _ & Hname & _ & _ & Hqdrant & _).
  destruct (Hqdrant _ eq_refl) as ((Hhost & _) & _ & (_ & Hkey) & _ & (_ & Hport & _)).
  split; [exact (Hhost eq_refl) |].
  split; [exact (Hkey eq_refl) |].
  split; [exact (Hport eq_refl eq_refl) |].
  exact (Hname eq_refl).
Defined.

(** C5 as stated fails for the collection name: with no workspace
    collection and the default collection "docs", the workspace store's
    collection is "workspace_memory", not "docs". *)
Lemma workspace_collection_skips_default_variable :
  WORKSPACE_VECTOR_STORE_COLLECTION env_qdrant_bare = None
  /\ VECTOR_STORE_COLLECTION env_qdrant_bare = Some "docs"
  /\ collectionName (getWorkspaceVectorStoreConfigFromEnv env_qdrant_bare JUndefined)
     = Some "workspace_memory"
  /\ collectionName (getWorkspaceVectorStoreConfigFromEnv env_qdrant_bare JUndefined)
     <> VECTOR_STORE_COLLECTION env_qdrant_bare.
Proof. repeat split; try reflexivity. vm_compute. discriminate. Qed.

(** An undefined workspace port is not replaced by the default port. *)
Example workspace_port_undefined :
  workspace_port (env_of [ numeric "VECTOR_STORE_PORT" (num 6333) ]) = None.
Proof. reflexivity. Qed.

(** The API key of a pinecone workspace store is the default one: the
    workspace variable is not read. *)
Example workspace_pinecone_apiKey :
  type (getWorkspaceVectorStoreConfigFromEnv
          (env_of [ text "VECTOR_STORE_TYPE" "pinecone";
                    text "WORKSPACE_VECTOR_STORE_API_KEY" "workspace-secret" ])
          JUndefined) = "in-memory".
Proof. reflexivity. Qed.

(** ** Orchestration *)

Lemma reflection_blank_test env :
  reflection_blank env
  <-> String.eqb (trim (str_or_lit (REFLECTION_VECTOR_STORE_COLLECTION env) "")) "" = true.
Proof.
  unfold reflection_blank, str_or_lit. rewrite String.eqb_eq.
  destruct (REFLECTION_VECTOR_STORE_COLLECTION env) as [name |]; [| split; reflexivity].
  destruct (String.eqb_spec name "") as [-> | Hname]; reflexivity.
Qed.

Example three_spaces_are_blank : reflection_blank env_blank_reflection.
Proof. reflexivity. Qed.

Example trim_keeps_inner_spaces : trim "  reflection memory  " = "reflection memory".
Proof. reflexivity. Qed.

Section Orchestration.
Context {M VectorStore : Type} `{!Manager M VectorStore}.

(** The reflection collection disabled: a rejected [connect] propagates
    and nothing else is called on the manager. *)
Lemma dual_blank_connect_rejected env config e m' :
  reflection_blank env ->
  connect (new_manager config) = (Thrown e, m') ->
  createDualCollectionVectorStoreInternal env config
  = (Thrown e, (m', [connect_call])).
Proof.
  intros Hblank Hconnect. apply reflection_blank_test in Hblank.
  unfold createDualCollectionVectorStoreInternal,
    createDualCollectionVectorStoreInternal_body.
  rewrite Hblank. unfold bind, await_connect. rewrite Hconnect. reflexivity.
Qed.

(** The reflection collection disabled and [connect] fulfilled. *)
Lemma dual_blank_connected env config connected m' :
  reflection_blank env ->
  connect (new_manager config) = (Returned connected, m') ->
  createDualCollectionVectorStoreInternal env config
  = (match getStore m' knowledge with
     | Some k => Returned {| knowledgeStore := k; reflectionStore := None |}
     | None => Thrown "Failed to get knowledge store from dual collection manager"
     end,
     (m', [connect_call; getStore_call knowledge])).
Proof.
  intros Hblank Hconnect. apply reflection_blank_test in Hblank.
  unfold createDualCollectionVectorStoreInternal,
    createDualCollectionVectorStoreInternal_body.
  rewrite Hblank. unfold bind, await_connect, call_getStore. rewrite Hconnect.
  cbn. destruct (getStore m' knowledge); reflexivity.
Qed.

(** The reflection collection enabled: a rejected [connect] is followed
    by [disconnect], whose outcome is dropped, and propagates. *)
Lemma dual_enabled_connect_rejected env config e m' :
  ~ reflection_blank env ->
  connect (new_manager config) = (Thrown e, m') ->
  createDualCollectionVectorStoreInternal env config
  = (Thrown e, ((disconnect m').2, [connect_call; disconnect_call])).
Proof.
  intros Hblank Hconnect. rewrite reflection_blank_test in Hblank.
  apply not_true_is_false in Hblank.
  unfold createDualCollectionVectorStoreInternal,
    createDualCollectionVectorStoreInternal_body.
  rewrite Hblank.
  unfold try_catch, bind, await_connect, await_disconnect_ignoring_errors, throw.
  rewrite Hconnect. destruct (disconnect m'). reflexivity.
Qed.

Lemma multi_connect_rejected config e m' :
  connect (new_manager config) = (Thrown e, m') ->
  createMultiCollectionVectorStoreInternal config
  = (Thrown e, ((disconnect m').2, [connect_call; disconnect_call])).
Proof.
  intros Hconnect.
  unfold createMultiCollectionVectorStoreInternal,
    createMultiCollectionVectorStoreInternal_body.
  unfold try_catch, bind, await_connect, await_disconnect_ignoring_errors, throw.
  rewrite Hconnect. destruct (disconnect m'). reflexivity.
Qed.
End Orchestration.

Section Cleanup.
Context {M VectorStore : Type} `{!Manager M VectorStore}.

(** With the reflection collection enabled, every failure of the dual
    factory is preceded by a call of [disconnect]. *)
Lemma dual_enabled_failure_disconnects env config e m log :
  ~ reflection_blank env ->
  createDualCollectionVectorStoreInternal env config = (Thrown e, (m, log)) ->
  last log = Some disconnect_call.
Proof.
  intros Hblank. rewrite reflection_blank_test in Hblank.
  apply not_true_is_false in Hblank.
  unfold createDualCollectionVectorStoreInternal,
    createDualCollectionVectorStoreInternal_body.
  rewrite Hblank.
  unfold try_catch, bind, await_connect, call_getStore,
    await_disconnect_ignoring_errors, throw, ret.
  destruct (connect (new_manager config)) as [[connected | e'] m'] eqn:Hconnect; cbn.
  - destruct (getStore m' knowledge) as [k |]; cbn.
    + intros [=].
    + destruct (disconnect m'). intros [= _ _ <-]. reflexivity.
  - destruct (disconnect m'). intros [= _ _ <-]. reflexivity.
Qed.

(** Every failure of the multi factory is preceded by a call of
    [disconnect]. *)
Lemma multi_failure_disconnects config e m log :
  createMultiCollectionVectorStoreInternal config = (Thrown e, (m, log)) ->
  last log = Some disconnect_call.
Proof.
  unfold createMultiCollectionVectorStoreInternal,
    createMultiCollectionVectorStoreInternal_body.
  unfold try_catch, bind, await_connect, call_getStore,
    await_disconnect_ignoring_errors, throw, ret.
  destruct (connect (new_manager config)) as [[connected | e'] m'] eqn:Hconnect; cbn.
  - destruct connected; cbn.
    + destruct (getStore m' knowledge) as [k |]; cbn.
      * intros [=].
      * destruct (disconnect m'). intros [= _ _ <-]. reflexivity.
    + destruct (disconnect m'). intros [= _ _ <-]. reflexivity.
  - destruct (disconnect m'). intros [= _ _ <-]. reflexivity.
Qed.
End Cleanup.

(** C2.  The claim asks that every failed connection be followed by the
    manager's [disconnect] before the error propagates.  The dual factory
    does so when a reflection collection is configured; with none
    configured, a rejected [connect] propagates at once: the only call made
    on the manager is [connect], and [disconnect] is never called. *)
Theorem connect_failure_without_cleanup :
  reflection_blank unset
  /\ createDualCollectionVectorStoreInternal (Manager0 := Scripted.manager unreachable)
       unset docs_config
     = (Thrown "connection refused",
        ({| Scripted.config := docs_config;
            Scripted.connected := false;
            Scripted.disconnects := 0 |},
         [connect_call]))
  /\ createDualCollectionVectorStoreInternal (Manager0 := Scripted.manager unreachable)
       env_with_reflection docs_config
     = (Thrown "connection refused",
        ({| Scripted.config := docs_config;
            Scripted.connected := false;
            Scripted.disconnects := 1 |},
         [connect_call; disconnect_call])).
Proof. split; [exact I | split; reflexivity]. Qed.

(** C7.  With the reflection collection name unset or blank after
    trimming, the dual factory, on any manager, calls [connect] and asks
    for the knowledge store only; once [connect] is fulfilled and the
    knowledge store is there it returns that store with a null reflection
    store, and whatever it returns has a null reflection store.  On the
    orchestrator of the specification the only construction attempted is
    the one of the knowledge collection, from the base configuration. *)
Theorem blank_reflection_single_collection env config :
  reflection_blank env ->
  (forall (M VectorStore : Type) (manager : Manager M VectorStore) connected m' k,
     connect (new_manager config) = (Returned connected, m') ->
     getStore m' knowledge = Some k ->
     createDualCollectionVectorStoreInternal env config
     = (Returned {| knowledgeStore := k; reflectionStore := None |},
        (m', [connect_call; getStore_call knowledge])))
  /\ (forall (M VectorStore : Type) (manager : Manager M VectorStore) outcome m log,
        createDualCollectionVectorStoreInternal env config = (outcome, (m, log)) ->
        (getStore_call reflection ∉ log)
        /\ (disconnect_call ∉ log)
        /\ (forall stores, outcome = Returned stores -> reflectionStore stores = None))
  /\ (forall (VectorStore : Type) (create : VectorStoreConfig -> Outcome VectorStore)
             (reflection_config : VectorStoreConfig -> VectorStoreConfig) k,
        create config = Returned k ->
        exists o,
          createDualCollectionVectorStoreInternal
            (Manager0 := Orchestrator.manager create reflection_config env) env config
          = (Returned {| knowledgeStore := k; reflectionStore := None |},
             (o, [connect_call; getStore_call knowledge]))
          /\ Orchestrator.attempts o = [config]
          /\ Orchestrator.reflection_slot o = None).
Proof.
  intros Hblank. split; [| split].
  - intros M VectorStore manager connected m' k Hconnect Hstore.
    rewrite (dual_blank_connected env config connected m' Hblank Hconnect), Hstore.
    reflexivity.
  - intros M VectorStore manager outcome m log.
    destruct (connect (new_manager config)) as [[connected | e] m'] eqn:Hconnect.
    + rewrite (dual_blank_connected env config connected m' Hblank Hconnect).
      intros [= <- <- <-]. split; [| split].
      * rewrite !elem_of_cons, elem_of_nil. intros [H | [H | []]]; discriminate H.
      * rewrite !elem_of_cons, elem_of_nil. intros [H | [H | []]]; discriminate H.
      * intros stores. destruct (getStore m' knowledge); intros [= <-]. reflexivity.
    + rewrite (dual_blank_connect_rejected env config e m' Hblank Hconnect).
      intros [= <- <- <-]. split; [| split].
      * rewrite !elem_of_cons, elem_of_nil. intros [H | []]; discriminate H.
      * rewrite !elem_of_cons, elem_of_nil. intros [H | []]; discriminate H.
      * intros stores [=].
  - intros VectorStore create reflection_config k Hcreate.
    pose proof (proj1 (reflection_blank_test env) Hblank) as Htest.
    set (o := {| Orchestrator.baseConfig := config;
                 Orchestrator.knowledge_slot := Some k;
                 Orchestrator.reflection_slot := None;
                 Orchestrator.attempts := [config];
                 Orchestrator.torn_down := [] |}).
    exists o.
    rewrite (dual_blank_connected
               (Manager0 := Orchestrator.manager create reflection_config env)
               env config true o Hblank).
    + cbn. split; [reflexivity | split; reflexivity].
    + cbn. unfold Orchestrator.connect. cbn. rewrite Hcreate, Htest. reflexivity.
Qed.

Lemma blank_reflection_single_collection_witness :
  createDualCollectionVectorStoreInternal (Manager0 := Scripted.manager reachable)
    env_blank_reflection docs_config
  = (Returned {| knowledgeStore := 1%nat; reflectionStore := None |},
     ({| Scripted.config := docs_config;
         Scripted.connected := true;
         Scripted.disconnects := 0 |},
      [connect_call; getStore_call knowledge])).
Proof.
  apply (proj1 (blank_reflection_single_collection env_blank_reflection docs_config
                  (eq_refl : reflection_blank env_blank_reflection))
           Scripted.t nat (Scripted.manager reachable) true);
    reflexivity.
Defined.

(** ** The service cache: one construction per key *)

Module ServiceCacheFacts.
Import ServiceCache.

Section Facts.
Context {V : Type}.
Implicit Types (c : t V) (key : string) (factory : Outcome V).

Lemma wf_empty : wf (@empty V).
Proof. intros p [h Hp]. cbn in Hp. rewrite lookup_empty in Hp. discriminate Hp. Qed.

Lemma wf_getOrCreate key factory c : wf c -> wf (getOrCreate key factory c).2.
Proof.
  intros Hwf. unfold getOrCreate.
  destruct (entries c !! key) as [[p | h] |]; cbn; try exact Hwf.
  intros p Hp. cbn in *. rewrite length_app. cbn. specialize (Hwf p Hp). lia.
Qed.

Lemma wf_complete p c : wf c -> wf (complete p c).
Proof.
  intros Hwf. unfold complete.
  destruct (invocations c !! p) as [[key [v | e]] |] eqn:Hstarted; [| | exact Hwf];
    (destruct (settled c !! p) eqn:Hsettled; [exact Hwf |]);
    intros q Hq; cbn in *;
    (destruct (decide (p = q)) as [<- | Hne];
     [ apply lookup_lt_Some in Hstarted; exact Hstarted
     | rewrite lookup_insert_ne in Hq by exact Hne; exact (Hwf q Hq) ]).
Qed.

(** A call for a key whose construction is in flight joins it. *)
Lemma getOrCreate_each_pending requests key p c :
  Forall (fun r => r.1 = key) requests ->
  entries c !! key = Some (pending p) ->
  getOrCreate_each requests c = (replicate (length requests) (later p), c).
Proof.
  intros Hkeys Hpending. induction Hkeys as [| [k factory] rest Hk _ IH]; [reflexivity |].
  cbn in Hk. subst k. cbn. unfold getOrCreate. rewrite Hpending, IH. reflexivity.
Qed.

(** A call for a key that has resolved returns its handle. *)
Lemma getOrCreate_each_ready requests key h c :
  Forall (fun r => r.1 = key) requests ->
  entries c !! key = Some (ready h) ->
  getOrCreate_each requests c = (replicate (length requests) (now h), c).
Proof.
  intros Hkeys Hready. induction Hkeys as [| [k factory] rest Hk _ IH]; [reflexivity |].
  cbn in Hk. subst k. cbn. unfold getOrCreate. rewrite Hready, IH. reflexivity.
Qed.

(** Requests for one key that has no entry: the first invokes its
    factory, the others wait for that construction; when it ends, all of
    them receive its outcome. *)
Lemma single_flight requests key c :
  requests <> [] ->
  Forall (fun r => r.1 = key) requests ->
  entries c !! key = None ->
  wf c ->
  exists factory outcome,
    let started := getOrCreate_each requests c in
    let final := complete (length (invocations c)) started.2 in
    invocations started.2 = invocations c ++ [(key, factory)]
    /\ invocations final = invocations c ++ [(key, factory)]
    /\ length started.1 = length requests
    /\ Forall (fun a => received final a = Some outcome) started.1
    /\ (forall v, factory = Returned v ->
          outcome = Returned {| instance := length (invocations c); value := v |})
    /\ (forall e, factory = Thrown e -> outcome = Thrown e).
Proof.
  intros Hne Hkeys Hfresh Hwf.
  destruct requests as [| [k factory] rest]; [contradiction |].
  apply Forall_cons in Hkeys as [Hk Hrest]. cbn in Hk. subst k.
  set (p := length (invocations c)).
  set (c1 := {| entries := <[key := pending p]> (entries c);
                invocations := invocations c ++ [(key, factory)];
                settled := settled c |}).
  assert (Hcalls : getOrCreate_each ((key, factory) :: rest) c
                   = (later p :: replicate (length rest) (later p), c1)).
  { cbn. unfold getOrCreate. rewrite Hfresh. fold p. fold c1.
    rewrite (getOrCreate_each_pending rest key p c1 Hrest); [reflexivity |].
    cbn. apply lookup_insert_eq. }
  assert (Hstarted : invocations c1 !! p = Some (key, factory)).
  { cbn. apply list_lookup_middle. reflexivity. }
  assert (Hunsettled : settled c1 !! p = None).
  { cbn. destruct (settled c !! p) eqn:Hs; [| reflexivity].
    assert (p < length (invocations c))%nat by (apply Hwf; eauto). unfold p in *. lia. }
  exists factory.
  exists (match factory with
          | Returned v => Returned {| instance := p; value := v |}
          | Thrown e => Thrown e
          end).
  cbn zeta. rewrite Hcalls. cbn [fst snd].
  assert (Hreceived : received (complete p c1) (later p)
                      = Some (match factory with
                              | Returned v => Returned {| instance := p; value := v |}
                              | Thrown e => Thrown e
                              end)).
  { unfold complete. rewrite Hstarted, Hunsettled.
    destruct factory as [v | e]; cbn; apply lookup_insert_eq. }
  split; [reflexivity |].
  split.
  { unfold complete. rewrite Hstarted, Hunsettled. destruct factory; reflexivity. }
  split.
  { cbn. rewrite length_replicate. reflexivity. }
  split.
  { constructor; [exact Hreceived |].
    apply Forall_forall. intros a Ha. apply elem_of_replicate in Ha as [-> _].
    exact Hreceived. }
  split.
  - intros v ->. reflexivity.
  - intros e ->. reflexivity.
Qed.
(** The same with the first request named: it is its factory that is
    invoked, every request waits for that construction, and what they
    receive when it ends is that factory's outcome. *)
Lemma single_flight_first key factory rest c :
  Forall (fun r => r.1 = key) rest ->
  entries c !! key = None ->
  wf c ->
  let p := length (invocations c) in
  let started := getOrCreate_each ((key, factory) :: rest) c in
  let final := complete p started.2 in
  started.1 = replicate (S (length rest)) (later p)
  /\ invocations started.2 = invocations c ++ [(key, factory)]
  /\ invocations final = invocations c ++ [(key, factory)]
  /\ received final (later p)
     = Some (match factory with
             | Returned v => Returned {| instance := p; value := v |}
             | Thrown e => Thrown e
             end).
Proof.
  intros Hrest Hfresh Hwf. cbn zeta.
  set (p := length (invocations c)).
  set (c1 := {| entries := <[key := pending p]> (entries c);
                invocations := invocations c ++ [(key, factory)];
                settled := settled c |}).
  assert (Hcalls : getOrCreate_each ((key, factory) :: rest) c
                   = (later p :: replicate (length rest) (later p), c1)).
  { cbn. unfold getOrCreate. rewrite Hfresh. fold p. fold c1.
    rewrite (getOrCreate_each_pending rest key p c1 Hrest); [reflexivity |].
    cbn. apply lookup_insert_eq. }
  assert (Hstarted : invocations c1 !! p = Some (key, factory)).
  { cbn. apply list_lookup_middle. reflexivity. }
  assert (Hunsettled : settled c1 !! p = None).
  { cbn. destruct (settled c !! p) eqn:Hs; [| reflexivity].
    assert (p < length (invocations c))%nat by (apply Hwf; eauto). unfold p in *. lia. }
  rewrite Hcalls. cbn [fst snd].
  split; [reflexivity |]. split; [reflexivity |]. split.
  - unfold complete. rewrite Hstarted, Hunsettled. destruct factory; reflexivity.
  - unfold complete. rewrite Hstarted, Hunsettled.
    destruct factory as [v | e]; cbn; apply lookup_insert_eq.
Qed.
End Facts.
End ServiceCacheFacts.

Section SingleFlight.
Context {M VectorStore : Type} `{!Manager M VectorStore}.
Variable createServiceKey : string -> list (string * jsval) -> string.

Lemma dual_calls_requests calls cache :
  dual_calls createServiceKey calls cache
  = ServiceCache.getOrCreate_each (map (dual_request createServiceKey) calls) cache.
Proof.
  revert cache. induction calls as [| [env agentConfig] rest IH]; intros cache;
    [reflexivity |].
  cbn [dual_calls map ServiceCache.getOrCreate_each].
  unfold createDualCollectionVectorStoreFromEnv, dual_request. cbn [fst snd].
  destruct (ServiceCache.getOrCreate _ _ cache) as [a cache']. rewrite IH. reflexivity.
Qed.

Lemma multi_calls_requests calls cache :
  multi_calls createServiceKey calls cache
  = ServiceCache.getOrCreate_each (map (multi_request createServiceKey) calls) cache.
Proof.
  revert cache. induction calls as [| [env agentConfig] rest IH]; intros cache;
    [reflexivity |].
  cbn [multi_calls map ServiceCache.getOrCreate_each].
  unfold createMultiCollectionVectorStoreFromEnv, multi_request. cbn [fst snd].
  destruct (ServiceCache.getOrCreate _ _ cache) as [a cache']. rewrite IH. reflexivity.
Qed.

(** C3.  Any number of calls of [createDualCollectionVectorStoreFromEnv]
    (or of [createMultiCollectionVectorStoreFromEnv]) that compute the same
    cache key and arrive before the construction for that key has ended
    invoke the inner factory closure exactly once: the closure of the
    first call, which runs [createDualCollectionVectorStoreInternal] (or
    [createMultiCollectionVectorStoreInternal]) on the configuration of
    the first call.  Every call waits for that one construction, and when
    it ends every call receives its result: the manager and the stores
    that construction returned, as one and the same instance, or the error
    it threw. *)
Theorem concurrent_calls_share_one_construction (first : Env * jsval)
    (rest : list (Env * jsval)) (key : string) :
  (forall cache,
     Forall (fun call =>
               dual_cacheKey createServiceKey call.1
                 (getVectorStoreConfigFromEnv call.1 call.2) = key) (first :: rest) ->
     ServiceCache.entries cache !! key = None ->
     ServiceCache.wf cache ->
     let p := length (ServiceCache.invocations cache) in
     let started := dual_calls createServiceKey (first :: rest) cache in
     let final := ServiceCache.complete p started.2 in
     let construction :=
       createDualCollectionVectorStoreInternal first.1
         (getVectorStoreConfigFromEnv first.1 first.2) in
     started.1 = replicate (S (length rest)) (ServiceCache.later p)
     /\ ServiceCache.invocations final
        = ServiceCache.invocations cache
          ++ [(key,
               match construction with
               | (Returned stores, (manager, _)) => Returned (stores, manager)
               | (Thrown e, _) => Thrown e
               end)]
     /\ (forall stores manager log,
           construction = (Returned stores, (manager, log)) ->
           Forall (fun a =>
                     ServiceCache.received final a
                     = Some (Returned {| ServiceCache.instance := p;
                                         ServiceCache.value := (stores, manager) |}))
             started.1)
     /\ (forall e s,
           construction = (Thrown e, s) ->
           Forall (fun a => ServiceCache.received final a = Some (Thrown e)) started.1))
  /\
  (forall cache,
     Forall (fun call =>
               multi_cacheKey createServiceKey call.1
                 (getVectorStoreConfigFromEnv call.1 call.2) = key) (first :: rest) ->
     ServiceCache.entries cache !! key = None ->
     ServiceCache.wf cache ->
     let p := length (ServiceCache.invocations cache) in
     let started := multi_calls createServiceKey (first :: rest) cache in
     let final := ServiceCache.complete p started.2 in
     let construction :=
       createMultiCollectionVectorStoreInternal
         (getVectorStoreConfigFromEnv first.1 first.2) in
     started.1 = replicate (S (length rest)) (ServiceCache.later p)
     /\ ServiceCache.invocations final
        = ServiceCache.invocations cache
          ++ [(key,
               match construction with
               | (Returned stores, (manager, _)) => Returned (stores, manager)
               | (Thrown e, _) => Thrown e
               end)]
     /\ (forall stores manager log,
           construction = (Returned stores, (manager, log)) ->
           Forall (fun a =>
                     ServiceCache.received final a
                     = Some (Returned {| ServiceCache.instance := p;
                                         ServiceCache.value := (stores, manager) |}))
             started.1)
     /\ (forall e s,
           construction = (Thrown e, s) ->
           Forall (fun a => ServiceCache.received final a = Some (Thrown e)) started.1)).
Proof.
  split; intros cache Hkeys Hfresh Hwf; cbn zeta;
    apply Forall_cons in Hkeys as [Hfirst Hrest].
  - rewrite dual_calls_requests. cbn [map].
    destruct (ServiceCacheFacts.single_flight_first key
                (dual_request createServiceKey first).2
                (map (dual_request createServiceKey) rest) cache)
      as (Hstarted & _ & Hfinal & Hreceived);
      [apply Forall_map; exact Hrest | exact Hfresh | exact Hwf |].
    cbn zeta in Hstarted, Hfinal, Hreceived.
    assert (Hrequest : dual_request createServiceKey first
                       = (key, (dual_request createServiceKey first).2))
      by (unfold dual_request at 1; cbn [fst snd]; rewrite Hfirst; reflexivity).
    rewrite Hrequest. rewrite length_map in Hstarted.
    split; [exact Hstarted |]. split; [exact Hfinal |].
    rewrite Hstarted. split.
    + intros stores manager log Hrun.
      apply Forall_forall. intros a Ha. apply elem_of_replicate in Ha as [-> _].
      rewrite Hreceived. unfold dual_request. cbn [snd]. rewrite Hrun. reflexivity.
    + intros e s Hrun.
      apply Forall_forall. intros a Ha. apply elem_of_replicate in Ha as [-> _].
      rewrite Hreceived. unfold dual_request. cbn [snd]. rewrite Hrun. reflexivity.
  - rewrite multi_calls_requests. cbn [map].
    destruct (ServiceCacheFacts.single_flight_first key
                (multi_request createServiceKey first).2
                (map (multi_request createServiceKey) rest) cache)
      as (Hstarted & _ & Hfinal & Hreceived);
      [apply Forall_map; exact Hrest | exact Hfresh | exact Hwf |].
    cbn zeta in Hstarted, Hfinal, Hreceived.
    assert (Hrequest : multi_request createServiceKey first
                       = (key, (multi_request createServiceKey first).2))
      by (unfold multi_request at 1; cbn [fst snd]; rewrite Hfirst; reflexivity).
    rewrite Hrequest. rewrite length_map in Hstarted.
    split; [exact Hstarted |]. split; [exact Hfinal |].
    rewrite Hstarted. split.
    + intros stores manager log Hrun.
      apply Forall_forall. intros a Ha. apply elem_of_replicate in Ha as [-> _].
      rewrite Hreceived. unfold multi_request. cbn [snd]. rewrite Hrun. reflexivity.
    + intros e s Hrun.
      apply Forall_forall. intros a Ha. apply elem_of_replicate in Ha as [-> _].
      rewrite Hreceived. unfold multi_request. cbn [snd]. rewrite Hrun. reflexivity.
Qed.
End SingleFlight.

Lemma concurrent_calls_share_one_construction_witness :
  let started :=
    dual_calls (Manager0 := Scripted.manager reachable) sample_createServiceKey
      three_calls ServiceCache.empty in
  let final := ServiceCache.complete 0 started.2 in
  length (ServiceCache.invocations final) = 1%nat
  /\ length started.1 = 3%nat
  /\ Forall (fun a =>
               ServiceCache.received final a
               = Some (Returned
                         {| ServiceCache.instance := 0%nat;
                            ServiceCache.value :=
                              ({| knowledgeStore := 1%nat; reflectionStore := Some 2%nat |},
                               {| Scripted.config :=
                                    getVectorStoreConfigFromEnv env_with_reflection
                                      JUndefined;
                                  Scripted.connected := true;
                                  Scripted.disconnects := 0 |}) |}))
       started.1.
Proof.
  destruct (proj1 (concurrent_calls_share_one_construction
                     (Manager0 := Scripted.manager reachable) sample_createServiceKey
                     (env_with_reflection, JUndefined)
                     [ (env_with_reflection, JUndefined);
                       (env_with_reflection, JUndefined) ]
                     (dual_cacheKey sample_createServiceKey env_with_reflection
                        (getVectorStoreConfigFromEnv env_with_reflection JUndefined)))
              ServiceCache.empty
              ltac:(repeat constructor)
              ltac:(apply lookup_empty)
              ServiceCacheFacts.wf_empty)
    as (Hstarted & Hinvocations & Hreturned & _).
  cbn zeta in *.
  change (length (ServiceCache.invocations
                    (@ServiceCache.empty
                       (DualCollectionVectorFactory nat * Scripted.t))))
    with O in *.
  fold three_calls in Hstarted, Hinvocations, Hreturned.
  split; [| split].
  - rewrite Hinvocations. reflexivity.
  - rewrite Hstarted. reflexivity.
  - exact (Hreturned _ _ _ eq_refl).
Defined.

(** * Further properties of the resolvers *)

(** ** What the resolvers return, and when *)

Lemma connection_test_false url host :
  negb (str_truthy url) && negb (str_truthy host) = false
  <-> str_truthy url = true \/ str_truthy host = true.
Proof.
  destruct (str_truthy url), (str_truthy host); cbn; split; auto; intros [H | H];
    congruence.
Qed.

Lemma default_has_connection_info env agentConfig :
  has_connection_info (getVectorStoreConfigFromEnv env agentConfig) = true.
Proof.
  resolver_cases;
    cbn [has_connection_info Qdrant.url Qdrant.host Milvus.url Milvus.host
           Chroma.url Chroma.host Pinecone.apiKey];
    try reflexivity;
    match goal with
    | H : negb (str_truthy _) && negb (str_truthy _) = false |- _ =>
        apply connection_test_false in H; apply orb_true_iff; exact H
    | H : negb (str_truthy _) = false |- _ => apply negb_false_iff in H; exact H
    end.
Qed.

Lemma workspace_has_connection_info env agentConfig :
  has_connection_info (getWorkspaceVectorStoreConfigFromEnv env agentConfig) = true.
Proof.
  resolver_cases;
    cbn [has_connection_info Qdrant.url Qdrant.host Milvus.url Milvus.host
           Chroma.url Chroma.host Pinecone.apiKey];
    try reflexivity;
    match goal with
    | H : negb (str_truthy _) && negb (str_truthy _) = false |- _ =>
        apply connection_test_false in H; apply orb_true_iff; exact H
    | H : negb (str_truthy _) = false |- _ => apply negb_false_iff in H; exact H
    end.
Qed.

Lemma superRefine_with_connection_info config i :
  has_connection_info config = true ->
  i ∈ superRefine config ->
  path i = ["indexName"] \/ path i = ["collectionName"].
Proof.
  intros Hinfo Hi. unfold superRefine in Hi.
  destruct config as [c | c | c | c | c]; cbn in Hinfo, Hi;
    repeat match type of Hi with
           | context [str_truthy ?x] =>
               let E := fresh "E" in destruct (str_truthy x) eqn:E; cbn in Hi, Hinfo
           end;
    try discriminate Hinfo;
    repeat match type of Hi with
           | context [if ?b then _ else _] => destruct b; cbn in Hi
           end;
    repeat (apply elem_of_cons in Hi as [-> | Hi]; [cbn; auto |]);
    apply elem_of_nil in Hi; contradiction.
Qed.

Lemma default_collectionName env agentConfig :
  collectionName (getVectorStoreConfigFromEnv env agentConfig)
  = VECTOR_STORE_COLLECTION env.
Proof. resolver_cases; reflexivity. Qed.

Lemma default_pinecone_indexName env agentConfig c :
  getVectorStoreConfigFromEnv env agentConfig = pinecone c ->
  Pinecone.indexName c = VECTOR_STORE_COLLECTION env.
Proof. intros H. revert H. resolver_cases; intros; simplify_eq; reflexivity. Qed.

Lemma workspace_pinecone_indexName env agentConfig c :
  getWorkspaceVectorStoreConfigFromEnv env agentConfig = pinecone c ->
  Pinecone.indexName c
  = Some (str_or_lit (WORKSPACE_VECTOR_STORE_COLLECTION env) "workspace_memory").
Proof. intros H. revert H. resolver_cases; intros; simplify_eq; reflexivity. Qed.

(** With the connection requirements met, the refinement finds nothing
    exactly when the collection name has the required format. *)
Lemma superRefine_nil_iff config name :
  has_connection_info config = true ->
  collectionName config = Some name ->
  (forall c, config = pinecone c -> Pinecone.indexName c = Some name) ->
  superRefine config = [] <-> collection_name_format name = true.
Proof.
  intros Hinfo Hname Hindex. unfold superRefine. rewrite Hname. cbn [tested_string].
  destruct config as [c | c | c | c | c]; cbn in Hinfo |- *.
  - destruct (collection_name_format name); cbn; split; congruence.
  - apply orb_true_iff in Hinfo.
    replace (negb (str_truthy (Qdrant.url c)) && negb (str_truthy (Qdrant.host c)))
      with false by (destruct Hinfo as [-> | ->]; cbn; rewrite ?andb_false_r; reflexivity).
    destruct (collection_name_format name); cbn; split; congruence.
  - apply orb_true_iff in Hinfo.
    replace (negb (str_truthy (Milvus.url c)) && negb (str_truthy (Milvus.host c)))
      with false by (destruct Hinfo as [-> | ->]; cbn; rewrite ?andb_false_r; reflexivity).
    destruct (collection_name_format name); cbn; split; congruence.
  - apply orb_true_iff in Hinfo.
    replace (negb (str_truthy (Chroma.url c)) && negb (str_truthy (Chroma.host c)))
      with false by (destruct Hinfo as [-> | ->]; cbn; rewrite ?andb_false_r; reflexivity).
    destruct (collection_name_format name); cbn; split; congruence.
  - rewrite Hinfo, (Hindex c eq_refl). cbn [negb app str_truthy].
    unfold collection_name_format.
    destruct (String.eqb name ""); cbn; [split; congruence |].
    destruct (all_name_chars name); cbn; split; congruence.
Qed.

(** X1.  A configuration returned by either resolver always carries what
    its backend needs to be reached (a URL or a host for qdrant, milvus and
    chroma, an API key for pinecone), so the refinement of the
    configuration schema never reports a missing URL, host or API key on
    it: any issue it reports is about the index name or the collection
    name. *)
Theorem resolved_config_meets_connection_requirements env agentConfig :
  (has_connection_info (getVectorStoreConfigFromEnv env agentConfig) = true
   /\ forall i, i ∈ superRefine (getVectorStoreConfigFromEnv env agentConfig) ->
        path i = ["indexName"] \/ path i = ["collectionName"])
  /\ (has_connection_info (getWorkspaceVectorStoreConfigFromEnv env agentConfig) = true
      /\ forall i, i ∈ superRefine (getWorkspaceVectorStoreConfigFromEnv env agentConfig) ->
           path i = ["indexName"] \/ path i = ["collectionName"]).
Proof.
  split; split.
  - apply default_has_connection_info.
  - intros i. apply superRefine_with_connection_info, default_has_connection_info.
  - apply workspace_has_connection_info.
  - intros i. apply superRefine_with_connection_info, workspace_has_connection_info.
Qed.

(** X2.  The refinement of the configuration schema finds nothing on the
    configuration [getWorkspaceVectorStoreConfigFromEnv] returns exactly
    when the workspace collection name (the variable, or
    "workspace_memory") is made of letters, digits, underscores and hyphens
    only; with the variable unset or empty it never finds anything. *)
Theorem workspace_config_passes_refinement env agentConfig :
  (superRefine (getWorkspaceVectorStoreConfigFromEnv env agentConfig) = []
   <-> collection_name_format
         (str_or_lit (WORKSPACE_VECTOR_STORE_COLLECTION env) "workspace_memory") = true)
  /\ (str_truthy (WORKSPACE_VECTOR_STORE_COLLECTION env) = false ->
      superRefine (getWorkspaceVectorStoreConfigFromEnv env agentConfig) = []).
Proof.
  assert (Hiff : superRefine (getWorkspaceVectorStoreConfigFromEnv env agentConfig) = []
                 <-> collection_name_format
                       (str_or_lit (WORKSPACE_VECTOR_STORE_COLLECTION env)
                          "workspace_memory") = true).
  { apply superRefine_nil_iff.
    - apply workspace_has_connection_info.
    - apply workspace_collectionName.
    - intros c. apply workspace_pinecone_indexName. }
  split; [exact Hiff |].
  intros Hunset. apply Hiff. rewrite (str_or_lit_unset _ _ Hunset). reflexivity.
Qed.

Lemma workspace_config_passes_refinement_witness :
  superRefine (getWorkspaceVectorStoreConfigFromEnv env_qdrant_local JUndefined) = [].
Proof.
  apply (proj2 (workspace_config_passes_refinement env_qdrant_local JUndefined)).
  reflexivity.
Defined.

(** X3.  With [VECTOR_STORE_COLLECTION] set, the refinement of the
    configuration schema finds nothing on the configuration
    [getVectorStoreConfigFromEnv] returns exactly when that name is not
    empty and made of letters, digits, underscores and hyphens only,
    whatever backend is requested and whether or not it fell back. *)
Theorem default_config_passes_refinement env agentConfig name :
  VECTOR_STORE_COLLECTION env = Some name ->
  superRefine (getVectorStoreConfigFromEnv env agentConfig) = []
  <-> collection_name_format name = true.
Proof.
  intros Hname. apply superRefine_nil_iff.
  - apply default_has_connection_info.
  - rewrite default_collectionName. exact Hname.
  - intros c Hc. rewrite (default_pinecone_indexName _ _ _ Hc). exact Hname.
Qed.

Lemma default_config_passes_refinement_witness :
  superRefine (getVectorStoreConfigFromEnv env_qdrant_bare JUndefined) = []
  /\ superRefine (getVectorStoreConfigFromEnv env_pinecone_spaced JUndefined) <> [].
Proof.
  split.
  - apply (default_config_passes_refinement env_qdrant_bare JUndefined "docs");
      reflexivity.
  - intros Hnil.
    apply (default_config_passes_refinement env_pinecone_spaced JUndefined "my docs"
             eq_refl) in Hnil.
    discriminate Hnil.
Defined.

Lemma lacks_connection_remote t url host :
  t = "qdrant" \/ t = "milvus" \/ t = "chroma" ->
  negb (str_truthy url) && negb (str_truthy host) = true ->
  forall apiKey, lacks_connection t host url apiKey.
Proof.
  intros Ht Htest apiKey. apply andb_true_iff in Htest as [Hurl Hhost].
  apply negb_true_iff in Hurl, Hhost. left. auto.
Qed.

Lemma lacks_connection_pinecone host url apiKey :
  negb (str_truthy apiKey) = true ->
  lacks_connection "pinecone" host url apiKey.
Proof. intros Hkey. apply negb_true_iff in Hkey. right. auto. Qed.

(** X4.  A configuration carries a [_fallbackFrom] tag only when the
    fallback took place.  From [getVectorStoreConfigFromEnv] the tag is the
    requested type, which then is qdrant, milvus or chroma with neither URL
    nor host, or pinecone with no API key; from
    [getWorkspaceVectorStoreConfigFromEnv] the tag is such a requested type
    followed by "-workspace".  A configuration of any other origin, an
    in-memory one that was asked for included, has no tag. *)
Theorem fallback_tag_only_on_fallback env agentConfig tag :
  (fallbackFrom (getVectorStoreConfigFromEnv env agentConfig) = Some tag ->
   VECTOR_STORE_TYPE env = Some tag
   /\ lacks_connection tag (VECTOR_STORE_HOST env) (VECTOR_STORE_URL env)
        (VECTOR_STORE_API_KEY env))
  /\
  (fallbackFrom (getWorkspaceVectorStoreConfigFromEnv env agentConfig) = Some tag ->
   exists t,
     tag = t +:+ "-workspace"
     /\ str_or (WORKSPACE_VECTOR_STORE_TYPE env) (VECTOR_STORE_TYPE env) = Some t
     /\ lacks_connection t
          (str_or (WORKSPACE_VECTOR_STORE_HOST env) (VECTOR_STORE_HOST env))
          (str_or (WORKSPACE_VECTOR_STORE_URL env) (VECTOR_STORE_URL env))
          (VECTOR_STORE_API_KEY env)).
Proof.
  split.
  - resolver_cases; cbn [fallbackFrom InMemory._fallbackFrom]; intros [= <-];
      (split; [apply str_is_true; assumption |]);
      first [ apply lacks_connection_pinecone; assumption
            | apply lacks_connection_remote; [auto | assumption] ].
  - resolver_cases; cbn [fallbackFrom InMemory._fallbackFrom]; intros [= <-];
      [ exists "qdrant" | exists "milvus" | exists "chroma" | exists "pinecone" ];
      (split; [reflexivity |]);
      (split; [apply str_is_true; assumption |]);
      first [ apply lacks_connection_pinecone; assumption
            | apply lacks_connection_remote; [auto | assumption] ].
Qed.

Lemma fallback_tag_only_on_fallback_witness :
  VECTOR_STORE_TYPE env_qdrant_bare = Some "qdrant"
  /\ lacks_connection "qdrant" (VECTOR_STORE_HOST env_qdrant_bare)
       (VECTOR_STORE_URL env_qdrant_bare) (VECTOR_STORE_API_KEY env_qdrant_bare).
Proof.
  apply (proj1 (fallback_tag_only_on_fallback env_qdrant_bare JUndefined "qdrant")).
  reflexivity.
Defined.

Lemma str_is_false_of_neq a b : a <> Some b -> str_is a b = false.
Proof.
  destruct a as [x |]; cbn; [| reflexivity].
  intros Hne. destruct (String.eqb_spec x b); [congruence | reflexivity].
Qed.

Lemma default_other_type env agentConfig :
  (forall t, remote_type t -> VECTOR_STORE_TYPE env <> Some t) ->
  getVectorStoreConfigFromEnv env agentConfig
  = in_memory_config (VECTOR_STORE_COLLECTION env)
      (override_dimension agentConfig
         (number_or (VECTOR_STORE_DIMENSION env) (num 1536)))
      (number_or (VECTOR_STORE_MAX_VECTORS env) (num 10000))
      None.
Proof.
  intros Hother. unfold getVectorStoreConfigFromEnv.
  rewrite (str_is_false_of_neq _ "qdrant"), (str_is_false_of_neq _ "milvus"),
    (str_is_false_of_neq _ "chroma"), (str_is_false_of_neq _ "pinecone");
    [reflexivity | ..]; apply Hother; unfold remote_type; auto.
Qed.

Lemma workspace_other_type env agentConfig :
  (forall t, remote_type t ->
     str_or (WORKSPACE_VECTOR_STORE_TYPE env) (VECTOR_STORE_TYPE env) <> Some t) ->
  getWorkspaceVectorStoreConfigFromEnv env agentConfig
  = in_memory_config
      (Some (str_or_lit (WORKSPACE_VECTOR_STORE_COLLECTION env) "workspace_memory"))
      (override_dimension agentConfig
         (number_or (WORKSPACE_VECTOR_STORE_DIMENSION env)
            (number_or (VECTOR_STORE_DIMENSION env) (num 1536))))
      (number_or (WORKSPACE_VECTOR_STORE_MAX_VECTORS env)
         (number_or (VECTOR_STORE_MAX_VECTORS env) (num 10000)))
      None.
Proof.
  intros Hother. unfold getWorkspaceVectorStoreConfigFromEnv.
  rewrite (str_is_false_of_neq _ "qdrant"), (str_is_false_of_neq _ "milvus"),
    (str_is_false_of_neq _ "chroma"), (str_is_false_of_neq _ "pinecone");
    [reflexivity | ..]; apply Hother; unfold remote_type; auto.
Qed.

(** X5.  When the requested type is not exactly one of "qdrant", "milvus",
    "chroma" and "pinecone" (unset, "in-memory", another spelling or
    another name), both resolvers return the in-memory configuration with
    the resolved collection name, dimension and maxVectors and with no
    fallback tag. *)
Theorem other_type_resolves_to_in_memory env agentConfig :
  ((forall t, remote_type t -> VECTOR_STORE_TYPE env <> Some t) ->
   getVectorStoreConfigFromEnv env agentConfig
   = in_memory_config (VECTOR_STORE_COLLECTION env)
       (override_dimension agentConfig
          (number_or (VECTOR_STORE_DIMENSION env) (num 1536)))
       (number_or (VECTOR_STORE_MAX_VECTORS env) (num 10000))
       None)
  /\
  ((forall t, remote_type t ->
      str_or (WORKSPACE_VECTOR_STORE_TYPE env) (VECTOR_STORE_TYPE env) <> Some t) ->
   getWorkspaceVectorStoreConfigFromEnv env agentConfig
   = in_memory_config
       (Some (str_or_lit (WORKSPACE_VECTOR_STORE_COLLECTION env) "workspace_memory"))
       (override_dimension agentConfig
          (number_or (WORKSPACE_VECTOR_STORE_DIMENSION env)
             (number_or (VECTOR_STORE_DIMENSION env) (num 1536))))
       (number_or (WORKSPACE_VECTOR_STORE_MAX_VECTORS env)
          (number_or (VECTOR_STORE_MAX_VECTORS env) (num 10000)))
       None).
Proof.
  split; intros Hother.
  - apply default_other_type, Hother.
  - apply workspace_other_type, Hother.
Qed.

Lemma other_type_resolves_to_in_memory_witness :
  getVectorStoreConfigFromEnv env_upper_case_type JUndefined
  = in_memory_config (Some "docs") (num 1536) (num 10000) None.
Proof.
  apply (proj1 (other_type_resolves_to_in_memory env_upper_case_type JUndefined)).
  intros t [-> | [-> | [-> | ->]]]; discriminate.
Defined.

Lemma default_type_remote env agentConfig t :
  remote_type t ->
  type (getVectorStoreConfigFromEnv env agentConfig) = t
  <-> VECTOR_STORE_TYPE env = Some t
      /\ can_be_reached t (VECTOR_STORE_HOST env) (VECTOR_STORE_URL env)
           (VECTOR_STORE_API_KEY env).
Proof.
  intros Hremote. split.
  - resolver_cases; cbn [type]; intros <-;
      try (destruct Hremote as [H' | [H' | [H' | H']]]; discriminate H');
      (split; [apply str_is_true; assumption |]); unfold can_be_reached;
      first [ left; split; [auto | apply connection_test_false; assumption]
            | right; split; [reflexivity |];
              match goal with H : negb _ = false |- _ => apply negb_false_iff in H; exact H end ].
  - intros [Ht [[Hname Hconn] | [-> Hkey]]]; unfold getVectorStoreConfigFromEnv;
      rewrite Ht.
    + apply connection_test_false in Hconn.
      destruct Hname as [-> | [-> | ->]]; cbn [str_is]; cbn -[in_memory_config];
        rewrite Hconn; reflexivity.
    + cbn [str_is]; cbn -[in_memory_config]. rewrite Hkey. reflexivity.
Qed.

Lemma workspace_type_remote env agentConfig t :
  remote_type t ->
  type (getWorkspaceVectorStoreConfigFromEnv env agentConfig) = t
  <-> str_or (WORKSPACE_VECTOR_STORE_TYPE env) (VECTOR_STORE_TYPE env) = Some t
      /\ can_be_reached t
           (str_or (WORKSPACE_VECTOR_STORE_HOST env) (VECTOR_STORE_HOST env))
           (str_or (WORKSPACE_VECTOR_STORE_URL env) (VECTOR_STORE_URL env))
           (VECTOR_STORE_API_KEY env).
Proof.
  intros Hremote. split.
  - resolver_cases; cbn [type]; intros <-;
      try (destruct Hremote as [H' | [H' | [H' | H']]]; discriminate H');
      (split; [apply str_is_true; assumption |]); unfold can_be_reached;
      first [ left; split; [auto | apply connection_test_false; assumption]
            | right; split; [reflexivity |];
              match goal with H : negb _ = false |- _ => apply negb_false_iff in H; exact H end ].
  - intros [Ht [[Hname Hconn] | [-> Hkey]]]; unfold getWorkspaceVectorStoreConfigFromEnv;
      rewrite Ht.
    + apply connection_test_false in Hconn.
      destruct Hname as [-> | [-> | ->]]; cbn [str_is]; cbn -[in_memory_config str_or];
        rewrite Hconn; reflexivity.
    + cbn [str_is]; cbn -[in_memory_config str_or]. rewrite Hkey. reflexivity.
Qed.

(** X6.  Either resolver returns a configuration of a remote backend
    (qdrant, milvus, chroma, pinecone) exactly when that backend is the
    requested type and can be reached: a URL or a host is set and not
    empty for qdrant, milvus and chroma, [VECTOR_STORE_API_KEY] is set and
    not empty for pinecone.  For the workspace resolver the requested type,
    host and URL are the WORKSPACE_ variables with the default ones as
    fallback, and the pinecone key is still [VECTOR_STORE_API_KEY]. *)
Theorem remote_type_exactly_when_reachable env agentConfig t :
  remote_type t ->
  (type (getVectorStoreConfigFromEnv env agentConfig) = t
   <-> VECTOR_STORE_TYPE env = Some t
       /\ can_be_reached t (VECTOR_STORE_HOST env) (VECTOR_STORE_URL env)
            (VECTOR_STORE_API_KEY env))
  /\ (type (getWorkspaceVectorStoreConfigFromEnv env agentConfig) = t
      <-> str_or (WORKSPACE_VECTOR_STORE_TYPE env) (VECTOR_STORE_TYPE env) = Some t
          /\ can_be_reached t
               (str_or (WORKSPACE_VECTOR_STORE_HOST env) (VECTOR_STORE_HOST env))
               (str_or (WORKSPACE_VECTOR_STORE_URL env) (VECTOR_STORE_URL env))
               (VECTOR_STORE_API_KEY env)).
Proof.
  intros Hremote. split.
  - apply default_type_remote, Hremote.
  - apply workspace_type_remote, Hremote.
Qed.

Lemma remote_type_exactly_when_reachable_witness :
  type (getVectorStoreConfigFromEnv env_qdrant_local JUndefined) = "qdrant"
  /\ type (getWorkspaceVectorStoreConfigFromEnv env_workspace_qdrant JUndefined) = "qdrant".
Proof.
  split.
  - apply (proj1 (remote_type_exactly_when_reachable env_qdrant_local JUndefined "qdrant"
                    ltac:(left; reflexivity))).
    split; [reflexivity |]. left. split; [left; reflexivity | right; reflexivity].
  - apply (proj2 (remote_type_exactly_when_reachable env_workspace_qdrant JUndefined
                    "qdrant" ltac:(left; reflexivity))).
    split; [reflexivity |]. left. split; [left; reflexivity | right; reflexivity].
Defined.

(** ** The agent configuration and the numbers *)

(** X7.  The agent configuration has a say in the dimension only: what
    either resolver returns is what it returns without an agent
    configuration, with the dimension replaced by the overridden one.  The
    backend chosen, the fallback and every other field are the same for
    all agent configurations. *)
Theorem agent_config_changes_dimension_only env agentConfig :
  getVectorStoreConfigFromEnv env agentConfig
  = with_dimension
      (override_dimension agentConfig
         (dimension (getVectorStoreConfigFromEnv env JUndefined)))
      (getVectorStoreConfigFromEnv env JUndefined)
  /\ getWorkspaceVectorStoreConfigFromEnv env agentConfig
     = with_dimension
         (override_dimension agentConfig
            (dimension (getWorkspaceVectorStoreConfigFromEnv env JUndefined)))
         (getWorkspaceVectorStoreConfigFromEnv env JUndefined).
Proof.
  split.
  - unfold getVectorStoreConfigFromEnv, in_memory_config.
    generalize (override_dimension agentConfig). intros f.
    repeat case_match; reflexivity.
  - unfold getWorkspaceVectorStoreConfigFromEnv, in_memory_config.
    generalize (override_dimension agentConfig). intros f.
    repeat case_match; reflexivity.
Qed.

Lemma number_or_not_NaN v fallback : fallback <> NaN -> number_or v fallback <> NaN.
Proof. destruct v as [[| negative | q] |]; cbn; congruence. Qed.

Lemma override_dimension_not_NaN agentConfig d :
  d <> NaN -> override_dimension agentConfig d <> NaN.
Proof.
  intros Hd. unfold override_dimension.
  destruct (_ && _); [| exact Hd].
  destruct (get (get agentConfig "embedding") "dimensions") as [| | | n | |];
    try exact Hd.
  destruct n as [| negative | q]; cbn; [exact Hd | |];
    match goal with |- (if ?b then _ else _) <> _ => destruct b end;
    congruence.
Qed.

Lemma num_not_NaN z : num z <> NaN.
Proof. discriminate. Qed.

Lemma workspace_port_not_NaN env : workspace_port env <> Some NaN.
Proof.
  unfold workspace_port.
  destruct (WORKSPACE_VECTOR_STORE_PORT env) as [[| negative | q] |]; cbn;
    try discriminate.
  destruct (VECTOR_STORE_PORT env) as [[| negative | q] |]; cbn; discriminate.
Qed.

(** X8.  No NaN leaves the resolvers: whatever numbers the environment and
    the agent configuration hold, the dimension returned is not NaN, the
    port of a qdrant, milvus or chroma configuration is a number other than
    NaN or undefined, and the maxVectors of an in-memory configuration is
    not NaN. *)
Theorem resolved_numbers_are_not_NaN env agentConfig :
  (dimension (getVectorStoreConfigFromEnv env agentConfig) <> NaN
   /\ port_of (getVectorStoreConfigFromEnv env agentConfig) <> Some NaN
   /\ forall c, getVectorStoreConfigFromEnv env agentConfig = in_memory c ->
        InMemory.maxVectors c <> NaN)
  /\ (dimension (getWorkspaceVectorStoreConfigFromEnv env agentConfig) <> NaN
      /\ port_of (getWorkspaceVectorStoreConfigFromEnv env agentConfig) <> Some NaN
      /\ forall c, getWorkspaceVectorStoreConfigFromEnv env agentConfig = in_memory c ->
           InMemory.maxVectors c <> NaN).
Proof.
  split; (split; [| split]).
  - rewrite default_dimension.
    apply override_dimension_not_NaN, number_or_not_NaN, num_not_NaN.
  - resolver_cases; cbn [port_of Qdrant.port Milvus.port Chroma.port];
      first [ discriminate
            | intros Hport;
              match goal with
              | H : Number_isNaN _ = false |- _ => rewrite Hport in H; discriminate H
              end ].
  - intros c. resolver_cases; intros; simplify_eq; cbn;
      apply number_or_not_NaN, num_not_NaN.
  - rewrite workspace_dimension.
    apply override_dimension_not_NaN, number_or_not_NaN, number_or_not_NaN, num_not_NaN.
  - resolver_cases; cbn [port_of Qdrant.port Milvus.port Chroma.port];
      first [discriminate | apply workspace_port_not_NaN].
  - intros c H. rewrite (workspace_maxVectors _ _ _ H).
    apply number_or_not_NaN, number_or_not_NaN, num_not_NaN.
Qed.

(** ** The fallback, and the workspace store beside the default store *)

(** X9.  A fallback keeps everything else resolved from the environment:
    the in-memory configuration returned in place of an unreachable
    backend has the resolved collection name, the resolved dimension with
    the agent override applied, and the resolved maxVectors, for both
    resolvers. *)
Theorem fallback_keeps_resolved_values env agentConfig t :
  (VECTOR_STORE_TYPE env = Some t ->
   lacks_connection t (VECTOR_STORE_HOST env) (VECTOR_STORE_URL env)
     (VECTOR_STORE_API_KEY env) ->
   getVectorStoreConfigFromEnv env agentConfig
   = in_memory {|
       InMemory.collectionName := VECTOR_STORE_COLLECTION env;
       InMemory.dimension :=
         override_dimension agentConfig
           (number_or (VECTOR_STORE_DIMENSION env) (num 1536));
       InMemory.maxVectors := number_or (VECTOR_STORE_MAX_VECTORS env) (num 10000);
       InMemory._fallbackFrom := Some t
     |})
  /\
  (str_or (WORKSPACE_VECTOR_STORE_TYPE env) (VECTOR_STORE_TYPE env) = Some t ->
   lacks_connection t
     (str_or (WORKSPACE_VECTOR_STORE_HOST env) (VECTOR_STORE_HOST env))
     (str_or (WORKSPACE_VECTOR_STORE_URL env) (VECTOR_STORE_URL env))
     (VECTOR_STORE_API_KEY env) ->
   getWorkspaceVectorStoreConfigFromEnv env agentConfig
   = in_memory {|
       InMemory.collectionName :=
         Some (str_or_lit (WORKSPACE_VECTOR_STORE_COLLECTION env) "workspace_memory");
       InMemory.dimension :=
         override_dimension agentConfig
           (number_or (WORKSPACE_VECTOR_STORE_DIMENSION env)
              (number_or (VECTOR_STORE_DIMENSION env) (num 1536)));
       InMemory.maxVectors :=
         number_or (WORKSPACE_VECTOR_STORE_MAX_VECTORS env)
           (number_or (VECTOR_STORE_MAX_VECTORS env) (num 10000));
       InMemory._fallbackFrom := Some (t +:+ "-workspace")
     |}).
Proof.
  split; intros Ht Hlacks.
  - exact (default_fallback env agentConfig t Ht Hlacks).
  - exact (workspace_fallback env agentConfig t Ht Hlacks).
Qed.

Lemma fallback_keeps_resolved_values_witness :
  getVectorStoreConfigFromEnv
    (env_of [ text "VECTOR_STORE_TYPE" "milvus";
              text "VECTOR_STORE_COLLECTION" "docs";
              numeric "VECTOR_STORE_DIMENSION" (num 1024);
              numeric "VECTOR_STORE_MAX_VECTORS" (num 500) ])
    (agentConfig_with_dimensions (JNumber (num 768)))
  = in_memory {|
      InMemory.collectionName := Some "docs";
      InMemory.dimension := num 768;
      InMemory.maxVectors := num 500;
      InMemory._fallbackFrom := Some "milvus"
    |}.
Proof.
  apply (proj1 (fallback_keeps_resolved_values
                  (env_of [ text "VECTOR_STORE_TYPE" "milvus";
                            text "VECTOR_STORE_COLLECTION" "docs";
                            numeric "VECTOR_STORE_DIMENSION" (num 1024);
                            numeric "VECTOR_STORE_MAX_VECTORS" (num 500) ])
                  (agentConfig_with_dimensions (JNumber (num 768))) "milvus"));
    [reflexivity |].
  left. split; [right; left; reflexivity | split; reflexivity].
Defined.

Lemma str_or_falsy a b : str_truthy a = false -> str_or a b = b.
Proof. intros H. unfold str_or. rewrite H. reflexivity. Qed.

(** X10.  With no workspace type, host and URL set, the workspace store
    gets the backend of the default store: both resolvers return the same
    type, and the workspace configuration is a fallback exactly when the
    default one is, its tag being the default tag followed by
    "-workspace". *)
Theorem workspace_follows_default_backend env agentConfig agentConfig' :
  str_truthy (WORKSPACE_VECTOR_STORE_TYPE env) = false ->
  str_truthy (WORKSPACE_VECTOR_STORE_HOST env) = false ->
  str_truthy (WORKSPACE_VECTOR_STORE_URL env) = false ->
  type (getWorkspaceVectorStoreConfigFromEnv env agentConfig)
  = type (getVectorStoreConfigFromEnv env agentConfig')
  /\ fallbackFrom (getWorkspaceVectorStoreConfigFromEnv env agentConfig)
     = (fun tag => tag +:+ "-workspace")
         <$> fallbackFrom (getVectorStoreConfigFromEnv env agentConfig').
Proof.
  intros Htype Hhost Hurl.
  unfold getWorkspaceVectorStoreConfigFromEnv.
  rewrite (str_or_falsy _ (VECTOR_STORE_TYPE env) Htype),
    (str_or_falsy _ (VECTOR_STORE_HOST env) Hhost),
    (str_or_falsy _ (VECTOR_STORE_URL env) Hurl).
  unfold getVectorStoreConfigFromEnv, in_memory_config.
  destruct (str_is (VECTOR_STORE_TYPE env) "qdrant");
    [ destruct (negb (str_truthy (VECTOR_STORE_URL env))
                && negb (str_truthy (VECTOR_STORE_HOST env))); split; reflexivity |].
  destruct (str_is (VECTOR_STORE_TYPE env) "milvus");
    [ destruct (negb (str_truthy (VECTOR_STORE_URL env))
                && negb (str_truthy (VECTOR_STORE_HOST env))); split; reflexivity |].
  destruct (str_is (VECTOR_STORE_TYPE env) "chroma");
    [ destruct (negb (str_truthy (VECTOR_STORE_URL env))
                && negb (str_truthy (VECTOR_STORE_HOST env))); split; reflexivity |].
  destruct (str_is (VECTOR_STORE_TYPE env) "pinecone");
    [ destruct (negb (str_truthy (VECTOR_STORE_API_KEY env))); split; reflexivity |].
  split; reflexivity.
Qed.

Lemma workspace_follows_default_backend_witness :
  type (getWorkspaceVectorStoreConfigFromEnv env_qdrant_local JUndefined) = "qdrant"
  /\ fallbackFrom (getWorkspaceVectorStoreConfigFromEnv env_qdrant_bare JUndefined)
     = Some "qdrant-workspace".
Proof.
  split.
  - apply (proj1 (workspace_follows_default_backend env_qdrant_local JUndefined JUndefined
                    eq_refl eq_refl eq_refl)).
  - apply (proj2 (workspace_follows_default_backend env_qdrant_bare JUndefined JUndefined
                    eq_refl eq_refl eq_refl)).
Defined.

(** * Further properties of the factories *)

Section SingleStoreFacts.
Context {M VectorStore : Type} `{!VectorStoreManager M VectorStore}.

Lemma createVectorStore_unfold config :
  createVectorStore config
  = match store_connect (new_store_manager config) with
    | (Returned s, m1) =>
        match store_getInfo m1 with
        | (Returned _, m2) =>
            match store_isConnected m2 with
            | (Returned _, m3) =>
                (Returned {| store := s |},
                 (m3, [store_connect_call; getInfo_call; isConnected_call]))
            | (Thrown e, m3) =>
                (Thrown e,
                 ((store_disconnect m3).2,
                  [store_connect_call; getInfo_call; isConnected_call;
                   store_disconnect_call]))
            end
        | (Thrown e, m2) =>
            (Thrown e,
             ((store_disconnect m2).2,
              [store_connect_call; getInfo_call; store_disconnect_call]))
        end
    | (Thrown e, m1) =>
        (Thrown e,
         ((store_disconnect m1).2, [store_connect_call; store_disconnect_call]))
    end.
Proof.
  unfold createVectorStore, createVectorStore_body, store_try_catch, store_bind,
    await_store_connect, call_getInfo, call_isConnected,
    await_store_disconnect_ignoring_errors, store_throw, store_ret.
  destruct (store_connect (new_store_manager config)) as [[s | e] m1]; cbn.
  - destruct (store_getInfo m1) as [[t | e] m2]; cbn.
    + destruct (store_isConnected m2) as [[b | e] m3]; cbn; [reflexivity |].
      destruct (store_disconnect m3); reflexivity.
    + destruct (store_disconnect m2); reflexivity.
  - destruct (store_disconnect m1); reflexivity.
Qed.

(** X11.  [createVectorStore] calls [disconnect] exactly when it fails.
    A call that returns has called [connect], [getInfo] and [isConnected],
    in this order, and never [disconnect]; it returns the store [connect]
    resolved to.  A call that throws has called [disconnect] exactly once,
    as its last call, after [connect] and those of [getInfo] and
    [isConnected] it got to.  A rejection of [connect] reaches the caller
    unchanged, whatever [disconnect] does, and is followed by [disconnect]
    alone. *)
Theorem createVectorStore_disconnects_exactly_on_failure config outcome m log :
  createVectorStore config = (outcome, (m, log)) ->
  (forall f, outcome = Returned f ->
     log = [store_connect_call; getInfo_call; isConnected_call]
     /\ exists m1, store_connect (new_store_manager config) = (Returned (store f), m1))
  /\ (forall e, outcome = Thrown e ->
        exists before,
          log = before ++ [store_disconnect_call]
          /\ (before = [store_connect_call]
              \/ before = [store_connect_call; getInfo_call]
              \/ before = [store_connect_call; getInfo_call; isConnected_call]))
  /\ (forall e m1, store_connect (new_store_manager config) = (Thrown e, m1) ->
        outcome = Thrown e
        /\ m = (store_disconnect m1).2
        /\ log = [store_connect_call; store_disconnect_call]).
Proof.
  rewrite createVectorStore_unfold.
  destruct (store_connect (new_store_manager config)) as [[s | e] m1].
  - destruct (store_getInfo m1) as [[t | e] m2];
      [destruct (store_isConnected m2) as [[b | e] m3] |];
      intros [= <- <- <-]; (split; [| split]).
    + intros f [= <-]. split; [reflexivity |]. exists m1. reflexivity.
    + intros e [=].
    + intros e m1' [=].
    + intros f [=].
    + intros e' _. exists [store_connect_call; getInfo_call; isConnected_call]. auto.
    + intros e' m1' [=].
    + intros f [=].
    + intros e' _. exists [store_connect_call; getInfo_call]. auto.
    + intros e' m1' [=].
  - intros [= <- <- <-]. split; [| split].
    + intros f [=].
    + intros e' _. exists [store_connect_call]. auto.
    + intros e' m1' [= <- <-]. auto.
Qed.
End SingleStoreFacts.

Lemma createVectorStore_disconnects_exactly_on_failure_witness :
  createVectorStore (VectorStoreManager0 := ScriptedStore.manager store_unreachable)
    docs_config
  = (Thrown "connection refused",
     ({| ScriptedStore.config := docs_config;
         ScriptedStore.connected := false;
         ScriptedStore.disconnects := 1 |},
      [store_connect_call; store_disconnect_call])).
Proof.
  destruct (createVectorStore (VectorStoreManager0 := ScriptedStore.manager store_unreachable)
              docs_config) as [outcome [m log]] eqn:Hrun.
  destruct (createVectorStore_disconnects_exactly_on_failure
              (VectorStoreManager0 := ScriptedStore.manager store_unreachable)
              docs_config outcome m log Hrun) as (_ & _ & Hreject).
  destruct (Hreject "connection refused" _ eq_refl) as (-> & -> & ->).
  reflexivity.
Defined.

(** A [getInfo] that throws after a successful [connect] makes the call
    fail and disconnect. *)
Example createVectorStore_getInfo_throws :
  createVectorStore (VectorStoreManager0 := ScriptedStore.manager store_without_info)
    docs_config
  = (Thrown "no backend",
     ({| ScriptedStore.config := docs_config;
         ScriptedStore.connected := false;
         ScriptedStore.disconnects := 1 |},
      [store_connect_call; getInfo_call; store_disconnect_call])).
Proof. reflexivity. Qed.

Section EnvironmentFactories.
Context {M VectorStore : Type} `{!VectorStoreManager M VectorStore}.

(** X12.  With no remote backend requested and no maxVectors in the
    environment, the factories that read the environment do what
    [createDefaultVectorStore] does when given the resolved collection name
    and dimension: [createVectorStoreFromEnv] with the name
    [VECTOR_STORE_COLLECTION] holds, [createWorkspaceVectorStoreFromEnv]
    with the workspace collection name or "workspace_memory". *)
Theorem environment_factories_default_to_in_memory env agentConfig :
  (forall name,
     (forall t, remote_type t -> VECTOR_STORE_TYPE env <> Some t) ->
     VECTOR_STORE_COLLECTION env = Some name ->
     number_present (VECTOR_STORE_MAX_VECTORS env) = false ->
     createVectorStoreFromEnv env agentConfig
     = createDefaultVectorStore (Some name)
         (Some (override_dimension agentConfig
                  (number_or (VECTOR_STORE_DIMENSION env) (num 1536)))))
  /\
  ((forall t, remote_type t ->
      str_or (WORKSPACE_VECTOR_STORE_TYPE env) (VECTOR_STORE_TYPE env) <> Some t) ->
   number_present (WORKSPACE_VECTOR_STORE_MAX_VECTORS env) = false ->
   number_present (VECTOR_STORE_MAX_VECTORS env) = false ->
   createWorkspaceVectorStoreFromEnv env agentConfig
   = createDefaultVectorStore
       (Some (str_or_lit (WORKSPACE_VECTOR_STORE_COLLECTION env) "workspace_memory"))
       (Some (override_dimension agentConfig
                (number_or (WORKSPACE_VECTOR_STORE_DIMENSION env)
                   (number_or (VECTOR_STORE_DIMENSION env) (num 1536)))))).
Proof.
  split.
  - intros name Hother Hname Hmax.
    unfold createVectorStoreFromEnv, createDefaultVectorStore, default_config.
    rewrite (default_other_type env agentConfig Hother).
    rewrite Hname, (number_or_absent _ _ Hmax). reflexivity.
  - intros Hother Hwmax Hmax.
    unfold createWorkspaceVectorStoreFromEnv, createDefaultVectorStore, default_config.
    rewrite (workspace_other_type env agentConfig Hother).
    rewrite (number_or_absent _ _ Hwmax), (number_or_absent _ _ Hmax). reflexivity.
Qed.
End EnvironmentFactories.

Lemma environment_factories_default_to_in_memory_witness :
  createVectorStoreFromEnv (VectorStoreManager0 := ScriptedStore.manager store_reachable)
    env_blank_reflection JUndefined
  = createDefaultVectorStore (VectorStoreManager0 := ScriptedStore.manager store_reachable)
      (Some "docs") (Some (num 1536)).
Proof.
  apply (proj1 (environment_factories_default_to_in_memory
                  (VectorStoreManager0 := ScriptedStore.manager store_reachable)
                  env_blank_reflection JUndefined) "docs");
    [| reflexivity | reflexivity].
  intros t [-> | [-> | [-> | ->]]]; discriminate.
Defined.

(** X13.  The configuration [createDefaultVectorStore] builds is an
    in-memory one without a fallback tag; the refinement of the
    configuration schema finds nothing on it exactly when the collection
    name given has the required format, and never finds anything when the
    name is left out. *)
Theorem default_store_config_passes_refinement collectionName dimension :
  type (default_config collectionName dimension) = "in-memory"
  /\ fallbackFrom (default_config collectionName dimension) = None
  /\ (forall name, collectionName = Some name ->
        superRefine (default_config collectionName dimension) = []
        <-> collection_name_format name = true)
  /\ (collectionName = None ->
      superRefine (default_config collectionName dimension) = []).
Proof.
  split; [reflexivity |]. split; [reflexivity |]. split.
  - intros name ->. apply superRefine_nil_iff; [reflexivity | reflexivity |].
    intros c Hc. discriminate Hc.
  - intros ->. reflexivity.
Qed.

Lemma default_store_config_passes_refinement_witness :
  superRefine (default_config (Some "team_notes-2") None) = []
  /\ superRefine (default_config None None) = [].
Proof.
  destruct (default_store_config_passes_refinement (Some "team_notes-2") None)
    as (_ & _ & Hgiven & _).
  destruct (default_store_config_passes_refinement None None) as (_ & _ & _ & Hdefault).
  split.
  - apply (Hgiven "team_notes-2" eq_refl). reflexivity.
  - apply Hdefault. reflexivity.
Defined.

Section CollectionFactories.
Context {M VectorStore : Type} `{!Manager M VectorStore}.

Lemma dual_enabled_unfold env config :
  ~ reflection_blank env ->
  createDualCollectionVectorStoreInternal env config
  = match connect (new_manager config) with
    | (Returned _, m1) =>
        match getStore m1 knowledge with
        | Some k =>
            (Returned {| knowledgeStore := k; reflectionStore := getStore m1 reflection |},
             (m1, [connect_call; getStore_call knowledge; getStore_call reflection]))
        | None =>
            (Thrown "Failed to get knowledge store from dual collection manager",
             ((disconnect m1).2,
              [connect_call; getStore_call knowledge; getStore_call reflection;
               disconnect_call]))
        end
    | (Thrown e, m1) =>
        (Thrown e, ((disconnect m1).2, [connect_call; disconnect_call]))
    end.
Proof.
  intros Hblank. rewrite reflection_blank_test in Hblank.
  apply not_true_is_false in Hblank.
  unfold createDualCollectionVectorStoreInternal,
    createDualCollectionVectorStoreInternal_body.
  rewrite Hblank.
  unfold try_catch, bind, await_connect, call_getStore,
    await_disconnect_ignoring_errors, throw, ret.
  destruct (connect (new_manager config)) as [[connected | e] m1]; cbn.
  - destruct (getStore m1 knowledge) as [k |]; cbn; [reflexivity |].
    destruct (disconnect m1); reflexivity.
  - destruct (disconnect m1); reflexivity.
Qed.

(** X14.  With a reflection collection configured, the dual factory is
    all or nothing.  A call that returns has called [connect] and asked
    for the two stores, nothing else: it returns the knowledge store of
    the manager and, as reflection store, whatever the manager holds for
    reflection, [null] included.  A call that throws has called
    [disconnect] exactly once, as its last call.  A manager that connects
    but holds no knowledge store makes the call throw "Failed to get
    knowledge store from dual collection manager". *)
Theorem dual_factory_all_or_nothing env config outcome m log :
  ~ reflection_blank env ->
  createDualCollectionVectorStoreInternal env config = (outcome, (m, log)) ->
  (forall stores, outcome = Returned stores ->
     log = [connect_call; getStore_call knowledge; getStore_call reflection]
     /\ getStore m knowledge = Some (knowledgeStore stores)
     /\ reflectionStore stores = getStore m reflection)
  /\ (forall e, outcome = Thrown e ->
        exists before, log = before ++ [disconnect_call] /\ disconnect_call ∉ before)
  /\ (forall connected m1,
        connect (new_manager config) = (Returned connected, m1) ->
        getStore m1 knowledge = None ->
        outcome = Thrown "Failed to get knowledge store from dual collection manager").
Proof.
  intros Hblank. rewrite (dual_enabled_unfold env config Hblank).
  destruct (connect (new_manager config)) as [[connected | e] m1].
  - destruct (getStore m1 knowledge) as [k |] eqn:Hk; intros [= <- <- <-];
      (split; [| split]).
    + intros stores [= <-]. cbn. auto.
    + intros e [=].
    + intros connected' m1' [= <- <-] Hnone. congruence.
    + intros stores [=].
    + intros e _.
      exists [connect_call; getStore_call knowledge; getStore_call reflection].
      split; [reflexivity |].
      rewrite !elem_of_cons, elem_of_nil. intros [H | [H | [H | []]]]; discriminate H.
    + intros connected' m1' _ _. reflexivity.
  - intros [= <- <- <-]. split; [| split].
    + intros stores [=].
    + intros e' _. exists [connect_call]. split; [reflexivity |].
      rewrite !elem_of_cons, elem_of_nil. intros [H | []]; discriminate H.
    + intros connected' m1' [=].
Qed.

Lemma multi_unfold config :
  createMultiCollectionVectorStoreInternal config
  = match connect (new_manager config) with
    | (Returned true, m1) =>
        match getStore m1 knowledge with
        | Some k =>
            (Returned {| multi_knowledgeStore := k;
                         multi_reflectionStore := getStore m1 reflection;
                         multi_workspaceStore := getStore m1 workspace |},
             (m1, [connect_call; getStore_call knowledge; getStore_call reflection;
                   getStore_call workspace]))
        | None =>
            (Thrown "Failed to get knowledge store from multi collection manager",
             ((disconnect m1).2,
              [connect_call; getStore_call knowledge; getStore_call reflection;
               getStore_call workspace; disconnect_call]))
        end
    | (Returned false, m1) =>
        (Thrown "Failed to connect multi collection vector manager",
         ((disconnect m1).2, [connect_call; disconnect_call]))
    | (Thrown e, m1) =>
        (Thrown e, ((disconnect m1).2, [connect_call; disconnect_call]))
    end.
Proof.
  unfold createMultiCollectionVectorStoreInternal,
    createMultiCollectionVectorStoreInternal_body.
  unfold try_catch, bind, await_connect, call_getStore,
    await_disconnect_ignoring_errors, throw, ret.
  destruct (connect (new_manager config)) as [[[|] | e] m1]; cbn.
  - destruct (getStore m1 knowledge) as [k |]; cbn; [reflexivity |].
    destruct (disconnect m1); reflexivity.
  - destruct (disconnect m1); reflexivity.
  - destruct (disconnect m1); reflexivity.
Qed.

(** X15.  The multi factory is all or nothing.  A call that returns has
    called [connect], which resolved to a truthy value, and asked for the
    three stores, nothing else; it returns the manager's knowledge store
    and whatever the manager holds for reflection and workspace.  A call
    that throws has called [disconnect] exactly once, as its last call.  A
    [connect] that resolves to a falsy value makes the call throw "Failed
    to connect multi collection vector manager". *)
Theorem multi_factory_all_or_nothing config outcome m log :
  createMultiCollectionVectorStoreInternal config = (outcome, (m, log)) ->
  (forall stores, outcome = Returned stores ->
     connect (new_manager config) = (Returned true, m)
     /\ log = [connect_call; getStore_call knowledge; getStore_call reflection;
               getStore_call workspace]
     /\ getStore m knowledge = Some (multi_knowledgeStore stores)
     /\ multi_reflectionStore stores = getStore m reflection
     /\ multi_workspaceStore stores = getStore m workspace)
  /\ (forall e, outcome = Thrown e ->
        exists before, log = before ++ [disconnect_call] /\ disconnect_call ∉ before)
  /\ (forall m1, connect (new_manager config) = (Returned false, m1) ->
        outcome = Thrown "Failed to connect multi collection vector manager").
Proof.
  rewrite multi_unfold.
  destruct (connect (new_manager config)) as [[[|] | e] m1].
  - destruct (getStore m1 knowledge) as [k |] eqn:Hk; intros [= <- <- <-];
      (split; [| split]).
    + intros stores [= <-]. cbn. auto.
    + intros e [=].
    + intros m1' [=].
    + intros stores [=].
    + intros e _.
      exists [connect_call; getStore_call knowledge; getStore_call reflection;
              getStore_call workspace].
      split; [reflexivity |].
      rewrite !elem_of_cons, elem_of_nil.
      intros [H | [H | [H | [H | []]]]]; discriminate H.
    + intros m1' [=].
  - intros [= <- <- <-]. split; [| split].
    + intros stores [=].
    + intros e' _. exists [connect_call]. split; [reflexivity |].
      rewrite !elem_of_cons, elem_of_nil. intros [H | []]; discriminate H.
    + intros m1' _. reflexivity.
  - intros [= <- <- <-]. split; [| split].
    + intros stores [=].
    + intros e' _. exists [connect_call]. split; [reflexivity |].
      rewrite !elem_of_cons, elem_of_nil. intros [H | []]; discriminate H.
    + intros m1' [=].
Qed.
End CollectionFactories.

Lemma dual_factory_all_or_nothing_witness :
  (createDualCollectionVectorStoreInternal (Manager0 := Scripted.manager without_knowledge)
     env_with_reflection docs_config).1
  = Thrown "Failed to get knowledge store from dual collection manager".
Proof.
  destruct (createDualCollectionVectorStoreInternal
              (Manager0 := Scripted.manager without_knowledge)
              env_with_reflection docs_config) as [outcome [m log]] eqn:Hrun.
  cbn [fst].
  assert (Henabled : ~ reflection_blank env_with_reflection)
    by (intros H; vm_compute in H; discriminate H).
  exact (proj2 (proj2 (dual_factory_all_or_nothing
                         (Manager0 := Scripted.manager without_knowledge)
                         env_with_reflection docs_config outcome m log Henabled Hrun))
           true _ eq_refl eq_refl).
Defined.

Lemma multi_factory_all_or_nothing_witness :
  (createMultiCollectionVectorStoreInternal (Manager0 := Scripted.manager connects_falsy)
     docs_config).1
  = Thrown "Failed to connect multi collection vector manager".
Proof.
  destruct (createMultiCollectionVectorStoreInternal
              (Manager0 := Scripted.manager connects_falsy) docs_config)
    as [outcome [m log]] eqn:Hrun.
  cbn [fst].
  exact (proj2 (proj2 (multi_factory_all_or_nothing
                         (Manager0 := Scripted.manager connects_falsy)
                         docs_config outcome m log Hrun))
           _ eq_refl).
Defined.

(** ** The reflection collection name *)

Lemma trimStart_nil_iff s : trimStart s = "" <-> all_spaces s = true.
Proof.
  induction s as [| c rest IH]; cbn; [split; reflexivity |].
  destruct (is_space c); cbn; [exact IH | split; discriminate].
Qed.





(** ** Cache keys *)

Section CacheKeys.
Variable createServiceKey : string -> list (string * jsval) -> string.

End CacheKeys.


(** ** [isQdrantConfigAvailable] *)

Lemma str_truthy_str_or a b : str_truthy (str_or a b) = str_truthy a || str_truthy b.
Proof. unfold str_or. destruct (str_truthy a) eqn:Ha; [exact Ha | reflexivity]. Qed.

(** X18.  Provided the env object shows the host and the URL of
    [process.env], [isQdrantConfigAvailable] errs on one side only: when it
    answers false, a request for qdrant falls back to in-memory storage,
    and whenever the resolver returns a qdrant configuration it answers
    true. *)
Theorem qdrant_unavailable_means_fallback process_env env agentConfig :
  shows_host_and_url env process_env ->
  VECTOR_STORE_TYPE env = Some "qdrant" ->
  (isQdrantConfigAvailable process_env = false ->
   type (getVectorStoreConfigFromEnv env agentConfig) = "in-memory"
   /\ fallbackFrom (getVectorStoreConfigFromEnv env agentConfig) = Some "qdrant")
  /\ (type (getVectorStoreConfigFromEnv env agentConfig) = "qdrant" ->
      isQdrantConfigAvailable process_env = true).
Proof.
  intros [Hhost Hurl] Htype.
  assert (Hfalse : isQdrantConfigAvailable process_env = false ->
                   str_truthy (VECTOR_STORE_URL env) = false
                   /\ str_truthy (VECTOR_STORE_HOST env) = false).
  { unfold isQdrantConfigAvailable. rewrite !str_truthy_str_or, Hhost, Hurl.
    intros H. apply orb_false_iff in H as [H _].
    apply orb_false_iff in H as [Eurl Ehost]. auto. }
  split.
  - intros Hunavailable. destruct (Hfalse Hunavailable) as [Eurl Ehost].
    rewrite (default_fallback env agentConfig "qdrant" Htype);
      [split; reflexivity |].
    left. split; [left; reflexivity | split; assumption].
  - intros Hqdrant.
    destruct (isQdrantConfigAvailable process_env) eqn:Havailable; [reflexivity |].
    destruct (Hfalse eq_refl) as [Eurl Ehost].
    rewrite (default_fallback env agentConfig "qdrant" Htype) in Hqdrant;
      [discriminate Hqdrant |].
    left. split; [left; reflexivity | split; assumption].
Qed.

Lemma qdrant_unavailable_means_fallback_witness :
  isQdrantConfigAvailable ∅ = false
  /\ type (getVectorStoreConfigFromEnv env_qdrant_bare JUndefined) = "in-memory".
Proof.
  split; [reflexivity |].
  apply (proj1 (qdrant_unavailable_means_fallback ∅ env_qdrant_bare JUndefined
                  ltac:(split; reflexivity) eq_refl)).
  reflexivity.
Defined.

(** A port alone makes [isQdrantConfigAvailable] answer true. *)
Example port_alone_counts_as_available :
  isQdrantConfigAvailable {[ "VECTOR_STORE_PORT" := "6333" ]} = true.
Proof. reflexivity. Qed.

(** ** The refinement on its own *)

(** X19.  The refinement of the configuration schema reports its two
    kinds of violation independently, for every configuration: it reports
    a missing URL, host or API key exactly when the backend's connection
    requirement is not met, and it reports the collection name exactly when
    the name is not made of one or more letters, digits, underscores and
    hyphens, whatever the backend type and whatever else is wrong. *)
Theorem superRefine_reports_each_violation config :
  ((exists i, i ∈ superRefine config /\ (path i = ["url"] \/ path i = ["apiKey"]))
   <-> has_connection_info config = false)
  /\ ((exists i, i ∈ superRefine config /\ path i = ["collectionName"])
      <-> collection_name_format (tested_string (collectionName config)) = false).
Proof.
  unfold superRefine.
  set (named := collection_name_format (tested_string (collectionName config))).
  split.
  - split.
    + intros (i & Hi & Hpath).
      destruct (has_connection_info config) eqn:Hinfo; [| reflexivity].
      destruct (superRefine_with_connection_info config i Hinfo Hi) as [H | H];
        rewrite H in Hpath; destruct Hpath as [Hp | Hp]; discriminate Hp.
    + intros Hinfo.
      destruct config as [c | c | c | c | c]; cbn in Hinfo; [discriminate Hinfo | ..].
      * apply orb_false_iff in Hinfo as [-> ->]. eexists. split.
        -- cbn. apply elem_of_cons; left; reflexivity.
        -- left. reflexivity.
      * apply orb_false_iff in Hinfo as [-> ->]. eexists. split.
        -- cbn. apply elem_of_cons; left; reflexivity.
        -- left. reflexivity.
      * apply orb_false_iff in Hinfo as [-> ->]. eexists. split.
        -- cbn. apply elem_of_cons; left; reflexivity.
        -- left. reflexivity.
      * rewrite Hinfo. eexists. split.
        -- cbn. apply elem_of_cons; left; reflexivity.
        -- right. reflexivity.
  - split.
    + intros (i & Hi & Hpath). destruct named eqn:Hnamed; [| reflexivity].
      cbn [negb] in Hi. rewrite app_nil_r in Hi.
      destruct config as [c | c | c | c | c]; cbn in Hi;
        repeat match type of Hi with
               | context [if ?b then _ else _] => destruct b; cbn in Hi
               end;
        repeat (apply elem_of_cons in Hi as [-> | Hi]; [discriminate Hpath |]);
        apply elem_of_nil in Hi; contradiction.
    + intros ->. cbn [negb]. eexists. split.
      * rewrite !elem_of_app. do 4 right. apply elem_of_cons; left; reflexivity.
      * reflexivity.
Qed.
